(** * konfuzio_sdk.api: the resilient fetch client and the resource operations

    A shallow embedding of [src/konfuzio_sdk/api.py].  Python values decoded
    from JSON are an inductive type, exceptions are a sum, and every function
    that talks to the server is a computation over an explicit [world]: the
    remote host together with the trace of requests, log records and sleeps
    the call has produced so far. *)

From Stdlib Require Import ZArith List String Bool Lia Permutation Sorted RelationClasses.
From ExtLib Require Import Structures.Monad.
Import ListNotations.
Import MonadNotation.
Local Open Scope monad_scope.
Local Open Scope string_scope.
Local Open Scope Z_scope.

(** ** Python values *)

(** What [json.loads] and [Response.json] produce.  Numbers are the integers
    (identifiers, offsets and status codes are); a [dict] keeps its items in
    insertion order.  A tuple built by a sort key is written as a [JArr]:
    tuples and lists are compared by the same algorithm. *)
#[warnings="-register-all"]
Inductive json : Type :=
| JNull
| JBool (b : bool)
| JNum (n : Z)
| JStr (s : string)
| JArr (l : list json)
| JObj (d : list (string * json)).

(** A formatted string before rendering: literal text and interpolated
    values, as in [f'Problem with credentials: {detail}']. *)
Inductive fragment : Type :=
| Lit (s : string)
| Interp (v : json).

Definition fstring := list fragment.

(** The exceptions that the modelled functions raise or let through. *)
Inductive exn : Type :=
| ConnectionError (msg : fstring)
| TimeoutError (msg : fstring)
| FileNotFoundError (msg : fstring)
| AssertionError (msg : fstring)
| KeyError (key : string)
| TypeError
| AttributeError
| JSONDecodeError
| UnboundLocalError (name : string)
| HTTPError (status : Z)
| RequestException (what : string).

(** The outcome of running a piece of Python: a value, a raised exception,
    or a loop that was cut off because the fuel of the model ran out. *)
Inductive result (A : Type) : Type :=
| Ok (a : A)
| Raise (e : exn)
| OutOfFuel.

Arguments Ok {A} a.
Arguments Raise {A} e.
Arguments OutOfFuel {A}.

#[export] Instance Monad_result : Monad result :=
  {| ret := fun _ a => Ok a;
     bind := fun _ _ c k =>
       match c with
       | Ok a => k a
       | Raise e => Raise e
       | OutOfFuel => OutOfFuel
       end |}.

Module Py.

(** [d.get(k)] on the items of a dict. *)
Fixpoint lookup (k : string) (d : list (string * json)) : option json :=
  match d with
  | [] => None
  | (k', v) :: d' => if String.eqb k k' then Some v else lookup k d'
  end.

(** Truth value of an object, as [if x] and [not x] test it. *)
Definition truthy (v : json) : bool :=
  match v with
  | JNull => false
  | JBool b => b
  | JNum n => negb (n =? 0)
  | JStr s => negb (String.eqb s "")
  | JArr l => match l with [] => false | _ => true end
  | JObj d => match d with [] => false | _ => true end
  end.

(** [a == b]. *)
Fixpoint eq (a b : json) {struct a} : bool :=
  match a, b with
  | JNull, JNull => true
  | JBool x, JBool y => Bool.eqb x y
  | JBool x, JNum n => Z.b2z x =? n
  | JNum m, JBool y => m =? Z.b2z y
  | JNum m, JNum n => m =? n
  | JStr s, JStr t => String.eqb s t
  | JArr xs, JArr ys =>
      (fix all2 (xs ys : list json) {struct xs} : bool :=
         match xs, ys with
         | [], [] => true
         | x :: xs', y :: ys' => eq x y && all2 xs' ys'
         | _, _ => false
         end) xs ys
  | JObj d, JObj e =>
      Nat.eqb (List.length d) (List.length e) &&
      (fix all (d : list (string * json)) : bool :=
         match d with
         | [] => true
         | (k, v) :: d' =>
             match lookup k e with
             | Some v' => eq v v'
             | None => false
             end && all d'
         end) d
  | _, _ => false
  end.

(** [a < b]; ordering is not defined for [None], for dicts, or across
    kinds, where Python raises [TypeError]. *)
Fixpoint lt (a b : json) {struct a} : result bool :=
  match a, b with
  | JNum m, JNum n => Ok (m <? n)
  | JNum m, JBool y => Ok (m <? Z.b2z y)
  | JBool x, JNum n => Ok (Z.b2z x <? n)
  | JBool x, JBool y => Ok (Z.b2z x <? Z.b2z y)
  | JStr s, JStr t => Ok (String.ltb s t)
  | JArr xs, JArr ys =>
      (fix lex (xs ys : list json) {struct xs} : result bool :=
         match xs, ys with
         | [], [] => Ok false
         | [], _ :: _ => Ok true
         | _ :: _, [] => Ok false
         | x :: xs', y :: ys' => if eq x y then lex xs' ys' else lt x y
         end) xs ys
  | _, _ => Raise TypeError
  end.

(** [x[k]] with a string key [k]. *)
Definition getitem (x : json) (k : string) : result json :=
  match x with
  | JObj d =>
      match lookup k d with
      | Some v => Ok v
      | None => Raise (KeyError k)
      end
  | _ => Raise TypeError
  end.

(** [x.get(k)]: only dicts have the method. *)
Definition get (x : json) (k : string) : result json :=
  match x with
  | JObj d =>
      match lookup k d with
      | Some v => Ok v
      | None => Ok JNull
      end
  | _ => Raise AttributeError
  end.

(** [isinstance(x, dict) and k in x.keys()]. *)
Definition is_dict_with (k : string) (x : json) : bool :=
  match x with
  | JObj d => match lookup k d with Some _ => true | None => false end
  | _ => false
  end.

Fixpoint chars (s : string) : list json :=
  match s with
  | EmptyString => []
  | String c s' => JStr (String c EmptyString) :: chars s'
  end.

(** The elements that iterating over [x] yields: the items of a list, the
    keys of a dict, the characters of a string. *)
Definition iter (x : json) : result (list json) :=
  match x with
  | JArr l => Ok l
  | JObj d => Ok (map (fun kv => JStr (fst kv)) d)
  | JStr s => Ok (chars s)
  | _ => Raise TypeError
  end.

(** [v in [2, 3]] and the like: membership is decided with [==]. *)
Definition contains (l : list json) (v : json) : bool :=
  existsb (fun c => eq c v) l.

Fixpoint mapM {A B : Type} (f : A -> result B) (l : list A) : result (list B) :=
  match l with
  | [] => Ok []
  | a :: l' => b <- f a ;; bs <- mapM f l' ;; ret (b :: bs)
  end.

(** [[x for x in l if f(x)]], where evaluating the condition may raise. *)
Fixpoint filterM {A : Type} (f : A -> result bool) (l : list A) : result (list A) :=
  match l with
  | [] => Ok []
  | a :: l' => b <- f a ;; r <- filterM f l' ;; ret (if b : bool then a :: r else r)
  end.

(** The sort of the library is stable and compares keys with [<] alone.
    It is written here as an insertion sort: on keys that [<] orders the
    result is the one of any stable sort, and a comparison that raises makes
    the sort raise.  One step: [x] goes before the first element whose key
    is not below the key of [x]. *)
Fixpoint insert (x : json * json) (l : list (json * json))
  : result (list (json * json)) :=
  match l with
  | [] => Ok [x]
  | y :: l' =>
      b <- lt (fst y) (fst x) ;;
      if b : bool then (r <- insert x l' ;; ret (y :: r)) else ret (x :: y :: l')
  end.

Fixpoint sort_keyed (l : list (json * json)) : result (list (json * json)) :=
  match l with
  | [] => Ok []
  | x :: l' => s <- sort_keyed l' ;; insert x s
  end.

(** [sorted(xs, key=key)]: the keys of all elements are computed first,
    the elements are then ordered by [<] on the keys, equal keys keeping
    their order. *)
Definition sorted (key : json -> result json) (xs : json) : result (list json) :=
  items <- iter xs ;;
  keys <- mapM key items ;;
  s <- sort_keyed (combine keys items) ;;
  ret (map snd s).

(** [operator.itemgetter(k)]. *)
Definition itemgetter (k : string) (x : json) : result json := getitem x k.

End Py.

(** ** The remote host and the effects of a call *)

Inductive method : Type := GET | POST | DELETE.

(** A request as the session sends it.  The URL is whatever value the caller
    passes (a continuation URL is taken from a response body as it comes). *)
Record request : Type := mkRequest {
  req_method : method;
  req_url : json;
  req_json : option json
}.

(** The parts of [requests.Response] that the SDK reads: [status_code], the
    body as [json.loads(r.text)] and [r.json()] decode it ([None] when the
    text is not JSON), [headers.get('content-type')] and [content]. *)
Record response : Type := mkResponse {
  status_code : Z;
  body : option json;
  content_type : option string;
  content : string
}.

(** What a request leads to: a response, or an exception raised by the
    transport before any response exists. *)
Inductive reply : Type :=
| Answer (r : response)
| Fails (what : string).

Inductive level : Type := INFO | WARNING | ERROR.

Inductive event : Type :=
| ERequest (q : request)
| ELog (lvl : level) (msg : fstring)
| ESleep (seconds : Z).

(** The session with the host behind it: [remote n q] is the outcome of
    request [q] when [n] requests were sent before it.  [trace] lists what
    has happened, oldest first. *)
Record world : Type := mkWorld {
  remote : nat -> request -> reply;
  sent : nat;
  trace : list event
}.

Definition M (A : Type) : Type := world -> result A * world.

#[export] Instance Monad_M : Monad M :=
  {| ret := fun _ a w => (Ok a, w);
     bind := fun _ _ c k w =>
       match c w with
       | (Ok a, w') => k a w'
       | (Raise e, w') => (Raise e, w')
       | (OutOfFuel, w') => (OutOfFuel, w')
       end |}.

Definition lift {A : Type} (c : result A) : M A := fun w => (c, w).

Definition raise {A : Type} (e : exn) : M A := lift (Raise e).

Definition out_of_fuel {A : Type} : M A := lift OutOfFuel.

(** Runs [c] inside a [try] block: the outcome is handed to the caller
    instead of being propagated. *)
Definition attempt {A : Type} (c : M A) : M (result A) :=
  fun w => let (r, w') := c w in (Ok r, w').

Definition emit (e : event) : M unit :=
  fun w => (Ok tt, mkWorld (remote w) (sent w) (trace w ++ [e])).

Definition log (lvl : level) (msg : fstring) : M unit := emit (ELog lvl msg).

(** [time.sleep(seconds)]. *)
Definition sleep (seconds : Z) : M unit := emit (ESleep seconds).

(** [session.request]: the request is sent, and the transport either hands
    back the response or raises. *)
Definition session_request (q : request) : M response :=
  fun w =>
    let w' := mkWorld (remote w) (S (sent w)) (trace w ++ [ERequest q]) in
    match remote w (sent w) q with
    | Answer r => (Ok r, w')
    | Fails what => (Raise (RequestException what), w')
    end.

Definition session_get (url : json) : M response :=
  session_request (mkRequest GET url None).

Definition session_post (url : json) (data : json) : M response :=
  session_request (mkRequest POST url (Some data)).

Definition session_delete (url : json) (data : json) : M response :=
  session_request (mkRequest DELETE url (Some data)).

(** [Response.raise_for_status] of the requests library: client errors
    (4xx) and server errors (5xx) raise [HTTPError], every other status
    passes. *)
Definition http_error (status : Z) : bool := (400 <=? status) && (status <? 600).

Definition raise_for_status (r : response) : result unit :=
  if http_error (status_code r) then Raise (HTTPError (status_code r)) else Ok tt.

(** [json.loads(r.text)] and [r.json()]. *)
Definition response_json (r : response) : result json :=
  match body r with
  | Some j => Ok j
  | None => Raise JSONDecodeError
  end.

(** [json.loads(r.text)["detail"]]. *)
Definition detail (r : response) : result json :=
  j <- response_json r ;; Py.getitem j "detail".

(** Reading a local variable that may not have been assigned yet. *)
Definition local {A : Type} (name : string) (v : option A) : result A :=
  match v with
  | Some a => Ok a
  | None => Raise (UnboundLocalError name)
  end.

(** ** retry_get *)

(** The [except Exception] block of one round of the loop.  [r] is the
    local variable as the [try] block left it and the value returned is the
    updated [retry_count]. *)
Definition on_failure (url : json) (r : option response) (retry_count : Z) : M Z :=
  r <- lift (local "r" r) ;;
  if (401 <=? status_code r) && (status_code r <=? 403) then
    d <- lift (detail r) ;;
    raise (ConnectionError [Lit "Problem with credentials: "; Interp d])
  else if status_code r =? 500 then
    d <- lift (detail r) ;;
    raise (TimeoutError [Lit "Problem with server: "; Interp d; Lit " even after 10 retries"])
  else
    log WARNING [Lit "Retry to get url >>"; Interp url; Lit "<<"] ;;
    let retry_count := retry_count + 1 in
    if 10 <=? retry_count then
      d <- lift (detail r) ;;
      raise (TimeoutError [Lit "Unknown issue even after 10 retries "; Interp d])
    else
      sleep 15 ;;
      ret retry_count.

(** The [while True] loop.  One round: the [try] block assigns [r] and
    checks the status, leaving the loop when neither call raises; otherwise
    the [except] block decides between raising and another round. *)
Fixpoint retry_loop (fuel : nat) (url : json) (r : option response) (retry_count : Z)
  : M response :=
  match fuel with
  | O => out_of_fuel
  | S fuel' =>
      got <- attempt (session_get url) ;;
      match got with
      | Ok r' =>
          match raise_for_status r' with
          | Ok _ => ret r'
          | _ =>
              n <- on_failure url (Some r') retry_count ;;
              retry_loop fuel' url (Some r') n
          end
      | Raise _ =>
          n <- on_failure url r retry_count ;;
          retry_loop fuel' url r n
      | OutOfFuel => out_of_fuel
      end
  end.

(** Ten rounds are all the loop can make: see [retry_loop_fuel]. *)
Definition retry_get (url : json) : M response := retry_loop 10 url None 0.

(** ** Resource operations *)

(** The URL builders of [konfuzio_sdk.urls] and the host name of
    [konfuzio_sdk] are parameters of the operations.  An optional argument
    of a builder is [None] when the caller leaves it out. *)
Record endpoints : Type := mkEndpoints {
  KONFUZIO_HOST : string;
  get_document_api_details_url : Z -> option bool -> option string -> string;
  get_documents_meta_url : string;
  get_create_label_url : string;
  get_document_result_v1 : Z -> string;
  get_document_ocr_file_url : Z -> string;
  get_document_original_file_url : Z -> string
}.

(** An instance of the Template class, of which [create_label] reads [id]. *)
Record template : Type := mkTemplate { template_id : Z }.

Definition len (l : list json) : json := JNum (Z.of_nat (List.length l)).

(** [x is None]. *)
Definition is_none (v : json) : bool :=
  match v with JNull => true | _ => false end.

Section Operations.

Variable U : endpoints.

(** [x['revised'] or x['is_correct'] or not x['id']], as a condition. *)
Definition revised_or_correct_or_local (x : json) : result bool :=
  a <- Py.getitem x "revised" ;;
  if Py.truthy a then ret true
  else
    b <- Py.getitem x "is_correct" ;;
    if Py.truthy b then ret true
    else
      c <- Py.getitem x "id" ;;
      ret (negb (Py.truthy c)).

(** [lambda x: (x.get('start_offset') is None, x.get('start_offset'))]. *)
Definition offset_key (x : json) : result json :=
  a <- Py.get x "start_offset" ;;
  b <- Py.get x "start_offset" ;;
  ret (JArr [JBool (is_none a); b]).

Definition get_document_annotations (document_id : Z) (include_extractions : bool)
  : M (list json) :=
  let url := JStr (get_document_api_details_url U document_id
                     (Some include_extractions) None) in
  r <- retry_get url ;;
  data <- lift (response_json r) ;;
  annotations <- lift (Py.getitem data "annotations") ;;
  let not_custom_annotations := annotations in
  revised_annotations_and_extractions <-
    lift (xs <- Py.iter not_custom_annotations ;;
          Py.filterM revised_or_correct_or_local xs) ;;
  sorted_annotations <-
    lift (Py.sorted offset_key (JArr revised_annotations_and_extractions)) ;;
  log INFO [Lit "Document with ID "; Interp (JNum document_id); Lit " contains ";
            Interp (len sorted_annotations); Lit " annotations."] ;;
  ret sorted_annotations.

(** [annotation['revised'] or annotation['is_correct']], as a condition. *)
Definition revised_or_correct (annotation : json) : result bool :=
  a <- Py.getitem annotation "revised" ;;
  if Py.truthy a then ret true
  else
    b <- Py.getitem annotation "is_correct" ;;
    ret (Py.truthy b).

Definition get_document_sections (document_id : Z) : M (list json) :=
  let url := JStr (get_document_api_details_url U document_id None None) in
  r <- retry_get url ;;
  data <- lift (response_json r) ;;
  annotations <- lift (Py.getitem data "annotations") ;;
  revised_annotations <-
    lift (xs <- Py.iter annotations ;; Py.filterM revised_or_correct xs) ;;
  sorted_annotations <-
    lift (Py.sorted (Py.itemgetter "start_offset") (JArr revised_annotations)) ;;
  ret sorted_annotations.

(** The paging loop of [get_meta_of_files]: [url] and [result] are the
    local variables, and the value returned is [result] as the loop
    leaves it. *)
Fixpoint meta_pages (fuel : nat) (url : json) (result : list json) : M json :=
  match fuel with
  | O => out_of_fuel
  | S fuel' =>
      r <- retry_get url ;;
      data <- lift (response_json r) ;;
      if Py.is_dict_with "results" data then
        more <- lift (res <- Py.getitem data "results" ;; Py.iter res) ;;
        let result := (result ++ more)%list in
        if Py.is_dict_with "next" data then
          next <- lift (Py.getitem data "next") ;;
          if Py.truthy next then meta_pages fuel' next result
          else ret (JArr result)
        else ret (JArr result)
      else ret data
  end.

(** [x['dataset_status'] in [2, 3]]. *)
Definition in_dataset (x : json) : result bool :=
  s <- Py.getitem x "dataset_status" ;;
  ret (Py.contains [JNum 2; JNum 3] s).

(** Lines 347 to 349: the documents ordered by [id], of which those in
    the training and test sets are kept. *)
Definition sorted_dataset_documents (fetched : json) : result (list json) :=
  sorted_documents <- Py.sorted (Py.itemgetter "id") fetched ;;
  Py.filterM in_dataset sorted_documents.

Definition get_meta_of_files (fuel : nat) : M (list json) :=
  let url := JStr (get_documents_meta_url U) in
  fetched <- meta_pages fuel url [] ;;
  lift (sorted_dataset_documents fetched).

Definition create_label (project_id : Z) (label_name : string)
  (templates : list template) : M json :=
  let url := JStr (get_create_label_url U) in
  let templates_ids := map (fun t => JNum (template_id t)) templates in
  let data := JObj [("project", JNum project_id); ("text", JStr label_name);
                    ("templates", JArr templates_ids)] in
  r <- session_post url data ;;
  if status_code r =? 201 then
    label_id <- lift (j <- response_json r ;; Py.getitem j "id") ;;
    ret label_id
  else
    raise (AssertionError [Lit "Status of request: <Response [";
                           Interp (JNum (status_code r)); Lit "]>"]).

Definition delete_file_konfuzio_api (document_id : Z) : M bool :=
  let url := JStr (get_document_result_v1 U document_id) in
  let data := JObj [("id", JNum document_id)] in
  r <- session_delete url data ;;
  if status_code r =? 204 then ret true
  else raise (AssertionError []).

(** [content_type not in ['application/pdf', 'image/jpeg', 'image/png',
    'image/jpg']], where [content_type] is [None] without the header. *)
Definition not_pdf_or_image (content_type : option string) : bool :=
  match content_type with
  | Some t =>
      negb (existsb (String.eqb t)
              ["application/pdf"; "image/jpeg"; "image/png"; "image/jpg"])
  | None => true
  end.

Definition download_file_konfuzio_api (document_id : Z) (ocr : bool) : M string :=
  let url := if ocr then JStr (get_document_ocr_file_url U document_id)
             else JStr (get_document_original_file_url U document_id) in
  r <- session_get url ;;
  match raise_for_status r with
  | Ok _ => ret tt
  | _ =>
      if negb (status_code r =? 200) then
        log ERROR [Lit "Requests error"] ;;
        d <- lift (detail r) ;;
        raise (FileNotFoundError [Interp d])
      else ret tt
  end ;;
  let content_type := content_type r in
  if not_pdf_or_image content_type then
    raise (FileNotFoundError
             [Lit "CONTENT TYP of "; Interp (JNum document_id); Lit " is ";
              Interp (match content_type with Some t => JStr t | None => JNull end);
              Lit " and no PDF or image."])
  else
    log INFO [Lit "Downloaded file "; Interp (JNum document_id); Lit " from ";
              Interp (JStr (KONFUZIO_HOST U)); Lit "."] ;;
    ret (content r).

End Operations.

(** ** Vocabulary of the statements *)

(** The request that [session.get(url=url)] sends. *)
Definition get_req (url : json) : request := mkRequest GET url None.

(** The world once request [q] has been sent. *)
Definition after_request (w : world) (q : request) : world :=
  mkWorld (remote w) (S (sent w)) (trace w ++ [ERequest q]).

(** The world after further events, [n] of which are requests. *)
Definition advance (w : world) (n : nat) (es : list event) : world :=
  mkWorld (remote w) (sent w + n) (trace w ++ es).

(** Sequencing on an outcome that is already at hand. *)
Definition and_then {A B : Type} (x : result A * world) (k : A -> M B)
  : result B * world :=
  match x with
  | (Ok a, w) => k a w
  | (Raise e, w) => (Raise e, w)
  | (OutOfFuel, w) => (OutOfFuel, w)
  end.

(** A status that sends [retry_get] into another round: an error status
    outside 401..403 and other than 500. *)
Definition retryable (status : Z) : bool :=
  http_error status
  && negb ((401 <=? status) && (status <=? 403))
  && negb (status =? 500).

Definition retry_warning (url : json) : event :=
  ELog WARNING [Lit "Retry to get url >>"; Interp url; Lit "<<"].

(** What one failed round leaves in the trace. *)
Definition failed_round (url : json) : list event :=
  [ERequest (get_req url); retry_warning url; ESleep 15].

(** The next [k] requests for [url] are all answered with a retryable
    status. *)
Definition keeps_failing (w : world) (url : json) (k : nat) : Prop :=
  forall i, (i < k)%nat ->
    exists r, remote w (sent w + i) (get_req url) = Answer r
              /\ retryable (status_code r) = true.

Definition is_sleep (e : event) : bool :=
  match e with ESleep _ => true | _ => false end.

Definition is_request (e : event) : bool :=
  match e with ERequest _ => true | _ => false end.

Definition is_warning (e : event) : bool :=
  match e with ELog WARNING _ => true | _ => false end.

(** The errors into which [retry_get] classifies a failure. *)
Definition classified (e : exn) : bool :=
  match e with
  | ConnectionError _ | TimeoutError _ => true
  | _ => false
  end.

(** ** Hosts and responses for the examples *)

(** A host that answers the [n]-th request with the [n]-th reply of a list
    and refuses the connection afterwards. *)
Definition scripted (replies : list reply) : nat -> request -> reply :=
  fun n _ => nth n replies (Fails "connection refused").

Definition fresh (replies : list reply) : world := mkWorld (scripted replies) 0 [].

(** A response whose body is [{"detail": d}]. *)
Definition detail_response (status : Z) (d : string) : response :=
  mkResponse status (Some (JObj [("detail", JStr d)])) (Some "application/json") "".

Definition busy : reply := Answer (detail_response 503 "busy").

Definition count (p : event -> bool) (w : world) : nat :=
  List.length (filter p (trace w)).

Definition example_endpoints : endpoints :=
  mkEndpoints "https://host"
    (fun document_id _ _ => "https://host/api/docs/")
    "https://host/api/docs/meta/"
    "https://host/api/labels/"
    (fun document_id => "https://host/api/docs/delete/")
    (fun document_id => "https://host/api/docs/ocr/")
    (fun document_id => "https://host/api/docs/original/").

(** The requests that the operations send. *)
Definition delete_req (U : endpoints) (document_id : Z) : request :=
  mkRequest DELETE (JStr (get_document_result_v1 U document_id))
    (Some (JObj [("id", JNum document_id)])).

Definition create_label_req (U : endpoints) (project_id : Z) (label_name : string)
  (templates : list template) : request :=
  mkRequest POST (JStr (get_create_label_url U))
    (Some (JObj [("project", JNum project_id); ("text", JStr label_name);
                 ("templates", JArr (map (fun t => JNum (template_id t)) templates))])).

Definition download_req (U : endpoints) (document_id : Z) (ocr : bool) : request :=
  get_req (JStr (if ocr then get_document_ocr_file_url U document_id
                 else get_document_original_file_url U document_id)).

(** The call ends in a not-found error. *)
Definition raises_not_found {A : Type} (out : result A * world) : Prop :=
  match fst out with
  | Raise (FileNotFoundError _) => True
  | _ => False
  end.

(** The host serves [pages], one list of items per page, from [url] on:
    every page is fetched by [retry_get], its body is a dict whose
    [results] are the items, and its [next] leads to the page after it;
    the [next] of the last page is absent or null.  [w'] is the world once
    the last page is fetched. *)
Fixpoint paged (w : world) (url : json) (pages : list (list json)) (w' : world)
  : Prop :=
  match pages with
  | [] => False
  | items :: rest =>
      exists r d w1,
        retry_get url w = (Ok r, w1)
        /\ body r = Some (JObj d)
        /\ Py.lookup "results" d = Some (JArr items)
        /\ match rest with
           | [] =>
               (Py.lookup "next" d = None \/ Py.lookup "next" d = Some JNull)
               /\ w' = w1
           | _ :: _ =>
               exists next,
                 Py.lookup "next" d = Some next
                 /\ Py.truthy next = true
                 /\ paged w1 next rest w'
           end
  end.

Definition page (items : list json) (next : json) : response :=
  mkResponse 200 (Some (JObj [("results", JArr items); ("next", next)]))
    (Some "application/json") "".

Definition document (id dataset_status : Z) : json :=
  JObj [("id", JNum id); ("dataset_status", JNum dataset_status)].

(** ** Orders on annotations and documents *)

(** [x.get(k)] as a value: null when [x] has no such key. *)
Definition field (k : string) (x : json) : json :=
  match x with
  | JObj d => match Py.lookup k d with Some v => v | None => JNull end
  | _ => JNull
  end.

(** The start offset of an annotation, when it has one. *)
Definition start_offset (x : json) : option Z :=
  match field "start_offset" x with
  | JNum n => Some n
  | _ => None
  end.

(** Ascending offsets, with the missing ones last. *)
Definition offset_le (a b : option Z) : Prop :=
  match a, b with
  | Some m, Some n => m <= n
  | _, None => True
  | None, Some _ => False
  end.

Definition nulls_last (l : list json) : Prop :=
  StronglySorted offset_le (map start_offset l).

(** The start offset of [x] is absent, null or an integer. *)
Definition offset_ok (x : json) : Prop :=
  field "start_offset" x = JNull \/ exists n, field "start_offset" x = JNum n.

(** The annotation is revised, or marked correct, or has no identifier of
    the server. *)
Definition kept (x : json) : bool :=
  Py.truthy (field "revised" x)
  || Py.truthy (field "is_correct" x)
  || negb (Py.truthy (field "id" x)).

(** An annotation as the server sends it: a dict with the keys [revised],
    [is_correct] and [id], whose start offset is absent, null or an
    integer. *)
Definition annotation_ok (x : json) : Prop :=
  (exists d, x = JObj d
             /\ Py.lookup "revised" d <> None
             /\ Py.lookup "is_correct" d <> None
             /\ Py.lookup "id" d <> None)
  /\ offset_ok x.

(** Where both documents have an integer [id], the first is not above the
    second. *)
Definition id_le (a b : json) : Prop :=
  forall m n,
    Py.getitem a "id" = Ok (JNum m) -> Py.getitem b "id" = Ok (JNum n) -> m <= n.

(** The document is in the training set (2) or in the test set (3). *)
Definition in_training_or_test (x : json) : Prop :=
  Py.getitem x "dataset_status" = Ok (JNum 2)
  \/ Py.getitem x "dataset_status" = Ok (JNum 3).

(** The order in which [sort_keyed] leaves two neighbours: the comparison
    that placed them said so. *)
Definition placed (p q : json * json) : Prop :=
  Py.lt (fst q) (fst p) = Ok false \/ Py.lt (fst p) (fst q) = Ok true.

(** The value of a key that is a number. *)
Definition numeric (v : json) : option Z :=
  match v with
  | JNum n => Some n
  | JBool b => Some (Z.b2z b)
  | _ => None
  end.

Definition annotation (id : json) (revised is_correct : bool) (offset : json) : json :=
  JObj [("id", id); ("revised", JBool revised); ("is_correct", JBool is_correct);
        ("start_offset", offset)].

Definition details (annotations : list json) : response :=
  mkResponse 200 (Some (JObj [("annotations", JArr annotations)]))
    (Some "application/json") "".

(** Two keyed elements whose keys [<] can compare. *)
Definition comparable (x y : json * json) : Prop :=
  exists b, Py.lt (fst x) (fst y) = Ok b.

(** The list that a comprehension with a condition builds holds some of the
    elements, in their order, and the condition held for them. *)
Inductive chosen {A : Type} (c : A -> result bool) : list A -> list A -> Prop :=
| chosen_nil : chosen c [] []
| chosen_keep x l r : c x = Ok true -> chosen c l r -> chosen c (x :: l) (x :: r)
| chosen_drop x l r : chosen c l r -> chosen c (x :: l) r.

(** Where the key of the first element is a number, so is the key of the
    second, and it is not below. *)
Definition numeric_le (p q : json * json) : Prop :=
  forall m, numeric (fst p) = Some m ->
            exists n, numeric (fst q) = Some n /\ m <= n.

(** A document as the server lists it: a dict with an integer [id] and a
    [dataset_status]. *)
Definition document_ok (x : json) : Prop :=
  exists d, x = JObj d
            /\ (exists i, Py.lookup "id" d = Some (JNum i))
            /\ Py.lookup "dataset_status" d <> None.

(** The [dataset_status] of the document is 2 or 3. *)
Definition training_or_test (x : json) : bool :=
  Py.contains [JNum 2; JNum 3] (field "dataset_status" x).

(** An annotation with the keys that [get_document_sections] reads and an
    integer start offset. *)
Definition section_annotation_ok (x : json) : Prop :=
  exists d, x = JObj d
            /\ Py.lookup "revised" d <> None
            /\ Py.lookup "is_correct" d <> None
            /\ (exists n, Py.lookup "start_offset" d = Some (JNum n)).

(** The annotation is revised or marked correct. *)
Definition revised_or_marked (x : json) : bool :=
  Py.truthy (field "revised" x) || Py.truthy (field "is_correct" x).

(** ** Further operations of the module *)

(** A string holds the UTF-8 encoding of a text.  The bytes [10xxxxxx]
    continue a character that an earlier byte began. *)
Definition is_continuation (c : Ascii.ascii) : bool :=
  match c with
  | Ascii.Ascii _ _ _ _ _ _ b6 b7 => b7 && negb b6
  end.

(** The number of characters of a text: the bytes that begin one. *)
Fixpoint characters (s : string) : nat :=
  match s with
  | EmptyString => 0
  | String c s' => (if is_continuation c then 0 else 1) + characters s'
  end.

(** [len(v)]: the number of characters of a string, of elements of a list,
    of keys of a dict; nothing else that JSON decodes to has a length. *)
Definition py_len (v : json) : result json :=
  match v with
  | JStr s => Ok (JNum (Z.of_nat (characters s)))
  | JArr l => Ok (len l)
  | JObj d => Ok (JNum (Z.of_nat (List.length d)))
  | _ => Raise TypeError
  end.

Section MoreOperations.

Variable U : endpoints.

(** Further builders of [konfuzio_sdk.urls]; [get_project_url] is called
    without a project id here. *)
Variable get_project_url : option Z -> string.
Variable post_project_api_document_annotations_url : Z -> string.
Variable delete_project_api_document_annotations_url : Z -> Z -> string.
Variable get_document_segmentation_details_url : Z -> Z -> string -> string.

Definition get_document_details (document_id : Z) : M json :=
  let url := JStr (get_document_api_details_url U document_id
                     (Some false) (Some "bbox,hocr")) in
  r <- retry_get url ;;
  data <- lift (response_json r) ;;
  text <- lift (Py.getitem data "text") ;;
  annotations <- lift (Py.getitem data "annotations") ;;
  sections <- lift (Py.getitem data "sections") ;;
  (if is_none text then
     log WARNING [Lit "Document with ID "; Interp (JNum document_id);
                  Lit " does not contain any text, check OCR status."]
   else
     n <- lift (py_len text) ;;
     a <- lift (py_len annotations) ;;
     s <- lift (py_len sections) ;;
     log INFO [Lit "Document with ID "; Interp (JNum document_id);
               Lit " contains "; Interp n; Lit " characters and ";
               Interp a; Lit " annotations in "; Interp s; Lit " sections."]) ;;
  ret data.

Definition get_document_text (document_id : Z) : M json :=
  let url := JStr (get_document_api_details_url U document_id None None) in
  r <- retry_get url ;;
  text <- lift (j <- response_json r ;; Py.getitem j "text") ;;
  (if is_none text then
     log WARNING [Lit "Document with ID "; Interp (JNum document_id);
                  Lit " does not contain any text, check OCR status."]
   else
     n <- lift (py_len text) ;;
     log INFO [Lit "Document with ID "; Interp (JNum document_id);
               Lit " contains "; Interp n; Lit " characters."]) ;;
  ret text.

Definition get_document_hocr (document_id : Z) : M json :=
  let url := JStr (get_document_api_details_url U document_id
                     None (Some "bbox,hocr")) in
  r <- retry_get url ;;
  hocr <- lift (j <- response_json r ;; Py.getitem j "hocr") ;;
  (if is_none hocr then
     log WARNING [Lit "Document with ID "; Interp (JNum document_id);
                  Lit " does not contain hocr."]
   else
     n <- lift (py_len hocr) ;;
     log INFO [Lit "Document with ID "; Interp (JNum document_id);
               Lit " contains "; Interp n; Lit " characters."]) ;;
  ret hocr.

Definition post_document_bulk_annotation (document_id : Z) (annotation_list : json)
  : M response :=
  let url := JStr (post_project_api_document_annotations_url document_id) in
  r <- session_post url annotation_list ;;
  lift (raise_for_status r) ;;
  ret r.

Definition delete_document_annotation (document_id annotation_id : Z) : M response :=
  let url := JStr (delete_project_api_document_annotations_url
                     document_id annotation_id) in
  r <- session_request (mkRequest DELETE url None) ;;
  ret r.

Definition get_project_labels : M (list json) :=
  let url := JStr (get_project_url None) in
  r <- retry_get url ;;
  sorted_labels <-
    lift (j <- response_json r ;;
          labels <- Py.getitem j "labels" ;;
          Py.sorted (Py.itemgetter "id") labels) ;;
  ret sorted_labels.

Definition get_project_templates : M (list json) :=
  let url := JStr (get_project_url None) in
  r <- session_get url ;;
  lift (raise_for_status r) ;;
  sorted_templates <-
    lift (j <- response_json r ;;
          section_labels <- Py.getitem j "section_labels" ;;
          Py.sorted (Py.itemgetter "id") section_labels) ;;
  ret sorted_templates.

Definition get_results_from_segmentation (doc_id project_id : Z) : M json :=
  let segmentation_url :=
    JStr (get_document_segmentation_details_url doc_id project_id "segmentation") in
  segmentation_result <- retry_get segmentation_url ;;
  segmentation_result <- lift (response_json segmentation_result) ;;
  ret segmentation_result.

End MoreOperations.

(** ** Vocabulary of the further statements *)

(** How many of the events satisfy [p]. *)
Definition tally (p : event -> bool) (es : list event) : nat :=
  List.length (filter p es).

(** The events that [retry_get] produces for [url]. *)
Definition retry_event (url : json) (e : event) : Prop :=
  e = ERequest (get_req url) \/ e = retry_warning url \/ e = ESleep 15.

(** The exceptions that [retry_get] lets out: the two classified errors,
    the unbound local, and what the lookup of the detail raises. *)
Definition retry_get_raises (e : exn) : Prop :=
  match e with
  | ConnectionError _ | TimeoutError _ => True
  | UnboundLocalError name => name = "r"
  | JSONDecodeError | TypeError => True
  | KeyError key => key = "detail"
  | _ => False
  end.

(** The next [k] requests for [url], from the [from]-th on, all fail in the
    transport. *)
Definition transport_down (w : world) (url : json) (from k : nat) : Prop :=
  forall i, (from <= i < from + k)%nat ->
    exists what, remote w (sent w + i) (get_req url) = Fails what.

(** Every request to the host, whenever and for whatever URL, is answered
    with a page that leads on to another. *)
Definition pages_forever (w : world) : Prop :=
  forall n url,
    exists r d items next,
      remote w n (get_req url) = Answer r
      /\ http_error (status_code r) = false
      /\ body r = Some (JObj d)
      /\ Py.lookup "results" d = Some (JArr items)
      /\ Py.lookup "next" d = Some next
      /\ Py.truthy next = true.

(** A label or template as the server lists it: a dict with an integer
    [id]. *)
Definition has_integer_id (x : json) : Prop :=
  exists d i, x = JObj d /\ Py.lookup "id" d = Some (JNum i).

(** An annotation that has an identifier of the server. *)
Definition has_server_id (x : json) : Prop := Py.truthy (field "id" x) = true.

Definition example_project_url (project_id : option Z) : string :=
  "https://host/api/projects/1/".

Definition example_annotations_url (document_id : Z) : string :=
  "https://host/api/docs/annotations/".

Definition label (id : Z) (name : string) : json :=
  JObj [("id", JNum id); ("text", JStr name)].

(** A document without a [dataset_status]. *)
Definition lacks_status (x : json) : Prop :=
  exists d, x = JObj d /\ Py.lookup "dataset_status" d = None.

(** The sort of [sort_keyed] on the elements themselves, for a key that is
    a plain function of the element. *)
Fixpoint insert_item (f : json -> json) (x : json) (l : list json)
  : result (list json) :=
  match l with
  | [] => Ok [x]
  | y :: l' =>
      b <- Py.lt (f y) (f x) ;;
      if b : bool then (r <- insert_item f x l' ;; ret (y :: r))
      else ret (x :: y :: l')
  end.

Fixpoint sort_items (f : json -> json) (l : list json) : result (list json) :=
  match l with
  | [] => Ok []
  | x :: l' => s <- sort_items f l' ;; insert_item f x s
  end.

(** The key of [get_document_annotations] as a function of the element. *)
Definition offset_pair (x : json) : json :=
  JArr [JBool (is_none (field "start_offset" x)); field "start_offset" x].

(** ** Images by URL *)

(** [is_url_image] and [download_images] call [requests.head] and
    [requests.get] of the library, without a session, and raise an
    exception of their own.  A call of the library and its outcome: *)
Inductive call : Type :=
| Head (url : string)
| Get (url : string).

(** The web as these functions see it: [answer n c] is the outcome of call
    [c] when [n] calls were made before it; [calls] lists the calls made,
    oldest first, and [infos] the records logged at level INFO. *)
Record web : Type := mkWeb {
  answer : nat -> call -> reply;
  calls : list call;
  infos : list fstring
}.

Inductive raised : Type :=
| Exn (e : exn)
| NotImplementedError (msg : string).

Inductive outcome (A : Type) : Type :=
| Done (a : A)
| Raised (e : raised).

Arguments Done {A} a.
Arguments Raised {A} e.

Definition W (A : Type) : Type := web -> outcome A * web.

#[export] Instance Monad_W : Monad W :=
  {| ret := fun _ a w => (Done a, w);
     bind := fun _ _ c k w =>
       match c w with
       | (Done a, w') => k a w'
       | (Raised e, w') => (Raised e, w')
       end |}.

Definition throw {A : Type} (e : raised) : W A := fun w => (Raised e, w).

(** [requests.head(url)] and [requests.get(url)]. *)
Definition requests_call (c : call) : W response :=
  fun w =>
    let w' := mkWeb (answer w) (calls w ++ [c]) (infos w) in
    match answer w (List.length (calls w)) c with
    | Answer r => (Done r, w')
    | Fails what => (Raised (Exn (RequestException what)), w')
    end.

Definition info (msg : fstring) : W unit :=
  fun w => (Done tt, mkWeb (answer w) (calls w) (infos w ++ [msg])).

(** [r.headers["content-type"]]. *)
Definition content_type_header (r : response) : W string :=
  match content_type r with
  | Some t => ret t
  | None => throw (Exn (KeyError "content-type"))
  end.

Definition image_formats : list string := ["image/png"; "image/jpeg"; "image/jpg"].

Definition is_url_image (image_url : string) : W bool :=
  r <- requests_call (Head image_url) ;;
  t <- content_type_header r ;;
  info [Interp (JStr image_url); Lit " has content type "; Interp (JStr t)] ;;
  t <- content_type_header r ;;
  if existsb (String.eqb t) image_formats then ret true else ret false.

(** A list comprehension whose body has effects. *)
Fixpoint for_each {A B : Type} (f : A -> W B) (l : list A) : W (list B) :=
  match l with
  | [] => ret []
  | a :: l' => b <- f a ;; bs <- for_each f l' ;; ret (b :: bs)
  end.

(** [sum(are_images)]. *)
Definition sum_bools (l : list bool) : nat :=
  fold_left (fun n (b : bool) => if b then S n else n) l 0%nat.

(** What [load_image] is given: a path or a buffer of bytes. *)
Inductive image_source : Type :=
| Path (p : string)
| Buffer (b : string).

Section Images.

(** The images of PIL and [Image.open], [None] when it raises [OSError];
    [get_file_type] of the utils, which rests on the filetype and zipfile
    libraries, with the constant [IMAGE_FILE] and [==] on file types. *)
Variable image : Type.
Variable Image_open : image_source -> option image.
Variable file_type : Type.
Variable same_file_type : file_type -> file_type -> bool.
Variable IMAGE_FILE : file_type.
Variable get_file_type : string -> W file_type.

Definition load_image (input_file : image_source) : W (option image) :=
  match input_file with
  | Path p =>
      t <- get_file_type p ;;
      if same_file_type t IMAGE_FILE then ret tt
      else throw (Exn (AssertionError
             [Lit "The image file you want to load, is not defined by us as an image."]))
  | Buffer _ => ret tt
  end ;;
  match Image_open input_file with
  | Some image => ret (Some image)
  | None => ret None
  end.

Definition download_images (urls : option (list string)) : W (list (option image)) :=
  match urls with
  | None => throw (Exn TypeError)
  | Some urls =>
      are_images <- for_each is_url_image urls ;;
      match firstn (sum_bools are_images) are_images with
      | [] => throw (NotImplementedError "Only images are supported")
      | _ :: _ =>
          downloads <- for_each (fun url => requests_call (Get url)) urls ;;
          images <- for_each (fun download => load_image (Buffer (content download)))
                      downloads ;;
          ret images
      end
  end.

End Images.

(** On [host], the [n]-th call and those after it being the HEAD calls for
    [urls], they are answered with the content types [types]. *)
Fixpoint heads_answer (host : nat -> call -> reply) (n : nat)
  (urls types : list string) : Prop :=
  match urls, types with
  | [], [] => True
  | u :: urls', t :: types' =>
      (exists r, host n (Head u) = Answer r /\ content_type r = Some t)
      /\ heads_answer host (S n) urls' types'
  | _, _ => False
  end.


Definition is_image_type (t : string) : bool := existsb (String.eqb t) image_formats.

Definition info_of (url type : string) : fstring :=
  [Interp (JStr url); Lit " has content type "; Interp (JStr type)].

(** The web after further calls and records. *)
Definition web_after (w : web) (cs : list call) (msgs : list fstring) : web :=
  mkWeb (answer w) (calls w ++ cs) (infos w ++ msgs).

(** The records that the HEAD calls for [urls] leave, one for each. *)
Definition infos_of (urls types : list string) : list fstring :=
  map (fun p => info_of (fst p) (snd p)) (combine urls types).

(** A web for the examples: the HEAD response for a URL has the content
    type that [types] gives, the GET response has the URL itself as
    content. *)
Definition example_web (types : string -> option string) : web :=
  mkWeb (fun _ c =>
           match c with
           | Head url => Answer (mkResponse 200 None (types url) "")
           | Get url => Answer (mkResponse 200 None (types url) url)
           end) [] [].

Definition example_types (url : string) : option string :=
  if String.eqb url "https://host/logo.png" then Some "image/png"
  else if String.eqb url "https://host/page.html" then Some "text/html"
  else None.

(** Opens the buffers that hold ["https://host/logo.png"] and nothing
    else. *)
Definition example_open (source : image_source) : option string :=
  match source with
  | Buffer b => if String.eqb b "https://host/logo.png" then Some b else None
  | Path _ => None
  end.

(** The three bytes of the euro sign in UTF-8. *)
Definition euro : string :=
  String (Ascii.ascii_of_nat 226)
    (String (Ascii.ascii_of_nat 130) (String (Ascii.ascii_of_nat 172) EmptyString)).

(** * Proofs *)

(** ** Tactics *)

Ltac case_step :=
  match goal with
  | |- context [match ?x with _ => _ end] =>
      lazymatch x with
      | context [match _ with _ => _ end] => fail
      | _ => destruct x eqn:?
      end
  end.

Ltac run := repeat (cbn; try discriminate; try case_step).

#[local] Arguments detail : simpl never.

(** ** The retry loop *)

Lemma detail_returns r : detail r <> OutOfFuel.
Proof. unfold detail, response_json, Py.getitem. run. Qed.

Lemma detail_unclassified r e : detail r = Raise e -> classified e = false.
Proof.
  unfold detail, response_json, Py.getitem. run; intros H; inversion H; reflexivity.
Qed.

Lemma on_failure_continue url r n rc w w' :
  on_failure url r rc w = (Ok n, w') -> n = rc + 1 /\ n < 10.
Proof.
  unfold on_failure, raise, lift, local. run.
  intros H. inversion H. split; [reflexivity | lia].
Qed.

Lemma on_failure_returns url r rc w : fst (on_failure url r rc w) <> OutOfFuel.
Proof.
  unfold on_failure, raise, lift, local. run;
    match goal with H : detail _ = OutOfFuel |- _ => destruct (detail_returns _ H) end.
Qed.

Lemma on_failure_unbound url rc w :
  on_failure url None rc w = (Raise (UnboundLocalError "r"), w).
Proof. reflexivity. Qed.

Lemma retryable_spec s :
  retryable s = true ->
  http_error s = true /\ (401 <=? s) && (s <=? 403) = false /\ (s =? 500) = false.
Proof.
  unfold retryable. intros H.
  apply andb_prop in H as [H H3]. apply andb_prop in H as [H1 H2].
  apply negb_true_iff in H2, H3. auto.
Qed.

Lemma on_failure_retry url r rc w :
  retryable (status_code r) = true -> rc + 1 < 10 ->
  on_failure url (Some r) rc w
  = (Ok (rc + 1), advance w 0 [retry_warning url; ESleep 15]).
Proof.
  intros R Hrc. apply retryable_spec in R as (_ & R1 & R2).
  unfold on_failure, advance. cbn. rewrite R1, R2. cbn.
  destruct (Z.leb_spec 10 (rc + 1)); [lia|]. cbn.
  rewrite Nat.add_0_r, <- app_assoc. reflexivity.
Qed.

Lemma on_failure_exhausted url r rc d w :
  retryable (status_code r) = true -> 10 <= rc + 1 -> detail r = Ok d ->
  on_failure url (Some r) rc w
  = (Raise (TimeoutError [Lit "Unknown issue even after 10 retries "; Interp d]),
     advance w 0 [retry_warning url]).
Proof.
  intros R Hrc D. apply retryable_spec in R as (_ & R1 & R2).
  unfold on_failure, advance. cbn. rewrite R1, R2. cbn.
  destruct (Z.leb_spec 10 (rc + 1)); [|lia]. cbn. rewrite D. cbn.
  rewrite Nat.add_0_r. reflexivity.
Qed.

Lemma on_failure_credentials url r rc w :
  401 <= status_code r <= 403 ->
  on_failure url (Some r) rc w
  = and_then (detail r, w)
      (fun d => raise (ConnectionError [Lit "Problem with credentials: "; Interp d])).
Proof.
  intros S. unfold on_failure. cbn.
  replace ((401 <=? status_code r) && (status_code r <=? 403)) with true
    by (symmetry; apply andb_true_intro; split; apply Z.leb_le; lia).
  cbn. destruct (detail r); reflexivity.
Qed.

Lemma on_failure_server url r rc w :
  status_code r = 500 ->
  on_failure url (Some r) rc w
  = and_then (detail r, w)
      (fun d => raise (TimeoutError [Lit "Problem with server: "; Interp d;
                                     Lit " even after 10 retries"])).
Proof.
  intros S. unfold on_failure. cbn. rewrite S. cbn.
  destruct (detail r); reflexivity.
Qed.

(** One round of the loop, by the reply of the host. *)
Lemma retry_loop_S fuel url r rc w :
  retry_loop (S fuel) url r rc w =
  let w1 := after_request w (get_req url) in
  match remote w (sent w) (get_req url) with
  | Answer r' =>
      if http_error (status_code r')
      then and_then (on_failure url (Some r') rc w1) (retry_loop fuel url (Some r'))
      else (Ok r', w1)
  | Fails _ => and_then (on_failure url r rc w1) (retry_loop fuel url r)
  end.
Proof.
  cbn -[on_failure].
  unfold attempt, session_get, session_request, raise_for_status, and_then, get_req.
  destruct (remote w (sent w) _) as [r'|]; cbn -[on_failure]; [|reflexivity].
  destruct (http_error (status_code r')); reflexivity.
Qed.

(** The loop needs no more rounds than the retries that are left. *)
Lemma retry_loop_fuel url :
  forall f1 f2 r rc w,
    (Z.to_nat (10 - rc) <= f1)%nat -> (Z.to_nat (10 - rc) <= f2)%nat -> rc < 10 ->
    retry_loop f1 url r rc w = retry_loop f2 url r rc w.
Proof.
  induction f1 as [|f1 IH]; intros f2 r rc w H1 H2 Hrc; [lia|].
  destruct f2 as [|f2]; [lia|].
  rewrite !retry_loop_S. cbv zeta.
  assert (step : forall r0 w1,
             and_then (on_failure url r0 rc w1) (retry_loop f1 url r0)
             = and_then (on_failure url r0 rc w1) (retry_loop f2 url r0)).
  { intros r0 w1.
    destruct (on_failure url r0 rc w1) as [[n| |] w2] eqn:E; try reflexivity.
    apply on_failure_continue in E. cbn. apply IH; lia. }
  destruct (remote w (sent w) (get_req url)); [|apply step].
  destruct (http_error _); [apply step | reflexivity].
Qed.

Lemma retry_loop_total url :
  forall fuel r rc w,
    (Z.to_nat (10 - rc) <= fuel)%nat -> rc < 10 ->
    fst (retry_loop fuel url r rc w) <> OutOfFuel.
Proof.
  induction fuel as [|f IH]; intros r rc w H Hrc; [lia|].
  rewrite retry_loop_S. cbv zeta.
  assert (step : forall r0 w1,
             fst (and_then (on_failure url r0 rc w1) (retry_loop f url r0))
             <> OutOfFuel).
  { intros r0 w1.
    destruct (on_failure url r0 rc w1) as [[n| |] w2] eqn:E; cbn; try discriminate.
    - apply on_failure_continue in E. apply IH; lia.
    - pose proof (on_failure_returns url r0 rc w1) as N.
      rewrite E in N. exfalso. apply N. reflexivity. }
  destruct (remote w (sent w) (get_req url)); [|apply step].
  destruct (http_error _); [apply step | discriminate].
Qed.

(** [retry_get] always comes back, and more fuel changes nothing. *)
Lemma retry_get_total url w : fst (retry_get url w) <> OutOfFuel.
Proof. apply retry_loop_total; [vm_compute|]; lia. Qed.

Lemma retry_get_enough_fuel url fuel w :
  (10 <= fuel)%nat -> retry_loop fuel url None 0 w = retry_get url w.
Proof. intros H. apply retry_loop_fuel; [vm_compute; lia | vm_compute; lia | lia]. Qed.

(** ** Failed rounds, one after the other *)

Lemma advance_0 w : advance w 0 [] = w.
Proof. destruct w. unfold advance. cbn. rewrite Nat.add_0_r, app_nil_r. reflexivity. Qed.

Lemma advance_advance w n m es fs :
  advance (advance w n es) m fs = advance w (n + m) (es ++ fs).
Proof. unfold advance. cbn. rewrite Nat.add_assoc, app_assoc. reflexivity. Qed.

Lemma after_request_advance w q : after_request w q = advance w 1 [ERequest q].
Proof. unfold after_request, advance. rewrite Nat.add_1_r. reflexivity. Qed.

Lemma keeps_failing_shift w url k es :
  keeps_failing w url (S k) -> keeps_failing (advance w 1 es) url k.
Proof.
  intros H i Hi. destruct (H (S i)) as (r & Hr & Hs); [lia|].
  exists r. split; [|exact Hs]. cbn. rewrite <- Hr. f_equal. lia.
Qed.

Lemma retry_loop_rounds url :
  forall k fuel r rc w,
    keeps_failing w url k -> rc + Z.of_nat k < 10 ->
    exists r',
      retry_loop (k + fuel) url r rc w
      = retry_loop fuel url r' (rc + Z.of_nat k)
          (advance w k (List.concat (repeat (failed_round url) k))).
Proof.
  induction k as [|k IH]; intros fuel r rc w F Hrc.
  - exists r. cbn. rewrite advance_0, Z.add_0_r. reflexivity.
  - destruct (F 0%nat) as (r0 & Hr & Hs); [lia|].
    rewrite Nat.add_0_r in Hr.
    change (S k + fuel)%nat with (S (k + fuel)).
    rewrite retry_loop_S. cbv zeta. rewrite Hr.
    destruct (retryable_spec _ Hs) as (He & _). rewrite He.
    rewrite on_failure_retry by (assumption || lia).
    rewrite after_request_advance, advance_advance. cbn [and_then].
    destruct (IH fuel (Some r0) (rc + 1)
                (advance w (1 + 0) ([ERequest (get_req url)] ++ [retry_warning url; ESleep 15])))
      as (r' & E).
    + apply keeps_failing_shift. exact F.
    + lia.
    + exists r'. rewrite E, advance_advance. f_equal; lia.
Qed.

Lemma keeps_failing_le w url k k' :
  (k' <= k)%nat -> keeps_failing w url k -> keeps_failing w url k'.
Proof. intros L F i Hi. apply F. lia. Qed.

(** C1.  While the host answers a GET with error statuses outside 401..403
    and other than 500, every failed round of [retry_get] sends the request,
    logs a warning and sleeps 15 units before the next round.  When a 2xx
    response comes after [k < 10] such rounds, it is returned, after exactly
    [k] warnings and sleeps.  When ten requests in a row fail in this way,
    the call raises the retry-exhausted [TimeoutError] with the detail of
    the tenth response, after ten requests and nine sleeps. *)
Theorem retry_get_retries_then_settles url w :
  (forall k r,
      (k < 10)%nat -> keeps_failing w url k ->
      remote w (sent w + k) (get_req url) = Answer r ->
      200 <= status_code r < 300 ->
      retry_get url w
      = (Ok r,
         advance w (S k)
           (List.concat (repeat (failed_round url) k) ++ [ERequest (get_req url)])))
  /\
  (forall r d,
      keeps_failing w url 10 ->
      remote w (sent w + 9) (get_req url) = Answer r ->
      detail r = Ok d ->
      retry_get url w
      = (Raise (TimeoutError [Lit "Unknown issue even after 10 retries "; Interp d]),
         advance w 10
           (List.concat (repeat (failed_round url) 9)
              ++ [ERequest (get_req url); retry_warning url]))).
Proof.
  split.
  - intros k r Hk F Hr Hs. unfold retry_get.
    replace 10%nat with (k + S (9 - k))%nat by lia.
    destruct (retry_loop_rounds url k (S (9 - k)) None 0 w F) as (r' & E); [lia|].
    rewrite E, retry_loop_S. cbv zeta.
    change (remote (advance w k _)) with (remote w).
    change (sent (advance w k _)) with (sent w + k)%nat.
    rewrite Hr.
    replace (http_error (status_code r)) with false
      by (symmetry; unfold http_error; apply andb_false_intro1, Z.leb_gt; lia).
    rewrite after_request_advance, advance_advance.
    f_equal. f_equal. lia.
  - intros r d F Hr D. unfold retry_get.
    destruct (retry_loop_rounds url 9 1 None 0 w) as (r' & E);
      [apply (keeps_failing_le w url 10); [lia | exact F] | lia |].
    change 10%nat with (9 + 1)%nat at 1. rewrite E, retry_loop_S. cbv zeta.
    change (remote (advance w 9 _)) with (remote w).
    change (sent (advance w 9 _)) with (sent w + 9)%nat.
    rewrite Hr.
    destruct (F 9%nat) as (r9 & Hr9 & Hs9); [lia|].
    rewrite Hr in Hr9. inversion Hr9; subst r9.
    destruct (retryable_spec _ Hs9) as (He & _). rewrite He.
    rewrite (on_failure_exhausted url r _ d) by (assumption || lia).
    rewrite after_request_advance, !advance_advance. reflexivity.
Qed.

Lemma retry_get_retries_then_settles_witness :
  let u := JStr "https://host/api/docs/" in
  let w9 := fresh (repeat busy 9 ++ [Answer (detail_response 200 "fine")]) in
  let w11 := fresh (repeat busy 11) in
  retry_get u w9
  = (Ok (detail_response 200 "fine"),
     advance w9 10 (List.concat (repeat (failed_round u) 9) ++ [ERequest (get_req u)]))
  /\ retry_get u w11
     = (Raise (TimeoutError [Lit "Unknown issue even after 10 retries ";
                             Interp (JStr "busy")]),
        advance w11 10 (List.concat (repeat (failed_round u) 9)
                          ++ [ERequest (get_req u); retry_warning u])).
Proof.
  intros u w9 w11. split.
  - apply (proj1 (retry_get_retries_then_settles u w9) 9%nat (detail_response 200 "fine")).
    + lia.
    + intros i Hi.
      do 9 (destruct i as [|i]; [eexists; split; reflexivity|]). lia.
    + reflexivity.
    + cbn. lia.
  - apply (proj2 (retry_get_retries_then_settles u w11) (detail_response 503 "busy") (JStr "busy")).
    + intros i Hi.
      do 10 (destruct i as [|i]; [eexists; split; reflexivity|]). lia.
    + reflexivity.
    + reflexivity.
Defined.

(** The two scenarios of the specification, run on the code. *)
Example retry_get_503_nine_times_then_200 :
  let w := fresh (repeat busy 9 ++ [Answer (detail_response 200 "fine")]) in
  let out := retry_get (JStr "u") w in
  fst out = Ok (detail_response 200 "fine")
  /\ count is_sleep (snd out) = 9%nat
  /\ count is_warning (snd out) = 9%nat
  /\ count is_request (snd out) = 10%nat.
Proof. repeat split. Qed.

Example retry_get_503_eleven_times :
  let w := fresh (repeat busy 11) in
  let out := retry_get (JStr "u") w in
  fst out = Raise (TimeoutError [Lit "Unknown issue even after 10 retries ";
                                 Interp (JStr "busy")])
  /\ count is_request (snd out) = 10%nat
  /\ count is_sleep (snd out) = 9%nat.
Proof. repeat split. Qed.

(** C2.  When the first response to the GET has a status in 401..403,
    [retry_get] raises the authentication error [ConnectionError] with the
    detail sent by the server; the request is all that has happened: no
    retry, no warning, no sleep. *)
Theorem retry_get_credentials url w r d :
  remote w (sent w) (get_req url) = Answer r ->
  401 <= status_code r <= 403 ->
  detail r = Ok d ->
  retry_get url w
  = (Raise (ConnectionError [Lit "Problem with credentials: "; Interp d]),
     after_request w (get_req url)).
Proof.
  intros Hr Hs D. unfold retry_get. rewrite retry_loop_S. cbv zeta. rewrite Hr.
  replace (http_error (status_code r)) with true
    by (symmetry; unfold http_error; apply andb_true_intro;
        split; [apply Z.leb_le | apply Z.ltb_lt]; lia).
  rewrite on_failure_credentials by exact Hs. rewrite D. reflexivity.
Qed.

Lemma retry_get_credentials_witness :
  let u := JStr "https://host/api/docs/" in
  let w := fresh [Answer (detail_response 401 "bad token")] in
  retry_get u w
  = (Raise (ConnectionError [Lit "Problem with credentials: ";
                             Interp (JStr "bad token")]),
     after_request w (get_req u)).
Proof.
  intros u w.
  apply (retry_get_credentials u w (detail_response 401 "bad token")).
  - reflexivity.
  - cbn. lia.
  - reflexivity.
Defined.

Example retry_get_401_bad_token :
  let out := retry_get (JStr "u") (fresh [Answer (detail_response 401 "bad token")]) in
  fst out = Raise (ConnectionError [Lit "Problem with credentials: ";
                                    Interp (JStr "bad token")])
  /\ count is_request (snd out) = 1%nat
  /\ count is_sleep (snd out) = 0%nat
  /\ count is_warning (snd out) = 0%nat.
Proof. repeat split. Qed.

(** Status 500 in general: the first such response ends the call. *)
Lemma retry_get_server_error url w r d :
  remote w (sent w) (get_req url) = Answer r ->
  status_code r = 500 ->
  detail r = Ok d ->
  retry_get url w
  = (Raise (TimeoutError [Lit "Problem with server: "; Interp d;
                          Lit " even after 10 retries"]),
     after_request w (get_req url)).
Proof.
  intros Hr Hs D. unfold retry_get. rewrite retry_loop_S. cbv zeta. rewrite Hr.
  rewrite Hs. cbn [http_error Z.leb Z.ltb Z.compare Pos.compare Pos.compare_cont andb].
  rewrite on_failure_server by exact Hs. rewrite D. reflexivity.
Qed.

(** C3.  On a host that answers 500 every time, [retry_get] raises the
    server [TimeoutError], whose message speaks of 10 retries, after a
    single request: nothing is retried and nothing is slept. *)
Theorem retry_get_status_500_single_attempt :
  let u := JStr "https://host/api/docs/" in
  let w := fresh (repeat (Answer (detail_response 500 "boom")) 11) in
  retry_get u w
  = (Raise (TimeoutError [Lit "Problem with server: "; Interp (JStr "boom");
                          Lit " even after 10 retries"]),
     after_request w (get_req u))
  /\ count is_request (snd (retry_get u w)) = 1%nat
  /\ count is_sleep (snd (retry_get u w)) = 0%nat.
Proof. repeat split. Qed.

(** C10.  The classification of a failure needs a response with a JSON
    body that has a detail.  When the transport raises on the first request
    no response was ever bound to [r]: reading it in the handler raises
    [UnboundLocalError], which is none of the classified errors.  When a
    response with status 401..403 or 500 has no such body, the exception of
    the lookup is what the call raises, again none of the classified
    errors. *)
Theorem retry_get_unclassified_failures url w :
  (forall what,
      remote w (sent w) (get_req url) = Fails what ->
      retry_get url w = (Raise (UnboundLocalError "r"), after_request w (get_req url))
      /\ classified (UnboundLocalError "r") = false)
  /\
  (forall r e,
      remote w (sent w) (get_req url) = Answer r ->
      401 <= status_code r <= 403 \/ status_code r = 500 ->
      detail r = Raise e ->
      retry_get url w = (Raise e, after_request w (get_req url))
      /\ classified e = false).
Proof.
  split.
  - intros what Hr. split; [|reflexivity].
    unfold retry_get. rewrite retry_loop_S. cbv zeta. rewrite Hr. reflexivity.
  - intros r e Hr Hs D. split; [|exact (detail_unclassified r e D)].
    unfold retry_get. rewrite retry_loop_S. cbv zeta. rewrite Hr.
    replace (http_error (status_code r)) with true
      by (symmetry; unfold http_error; apply andb_true_intro;
          split; [apply Z.leb_le | apply Z.ltb_lt]; lia).
    destruct Hs as [Hs | Hs].
    + rewrite on_failure_credentials by exact Hs. rewrite D. reflexivity.
    + rewrite on_failure_server by exact Hs. rewrite D. reflexivity.
Qed.

Lemma retry_get_unclassified_failures_witness :
  let u := JStr "https://host/api/docs/" in
  let html := mkResponse 500 None (Some "text/html") "" in
  (retry_get u (fresh [])
   = (Raise (UnboundLocalError "r"), after_request (fresh []) (get_req u))
   /\ classified (UnboundLocalError "r") = false)
  /\ (retry_get u (fresh [Answer html])
      = (Raise JSONDecodeError, after_request (fresh [Answer html]) (get_req u))
      /\ classified JSONDecodeError = false).
Proof.
  intros u html. split.
  - apply (proj1 (retry_get_unclassified_failures u (fresh [])) "connection refused").
    reflexivity.
  - apply (proj2 (retry_get_unclassified_failures u (fresh [Answer html])) html).
    + reflexivity.
    + right. reflexivity.
    + reflexivity.
Defined.

(** ** Assertions on the status: deleting a document, creating a label *)

(** C9.  Once the server has responded, [delete_file_konfuzio_api] returns
    [True] when the status is 204 and raises a bare [AssertionError] for
    every other status; [create_label] raises an [AssertionError] unless
    the status is 201, and with 201 it returns the [id] of the body. *)
Theorem delete_and_create_assert_status U w :
  (forall document_id r,
      remote w (sent w) (delete_req U document_id) = Answer r ->
      (status_code r = 204 ->
       delete_file_konfuzio_api U document_id w
       = (Ok true, after_request w (delete_req U document_id)))
      /\ (status_code r <> 204 ->
          delete_file_konfuzio_api U document_id w
          = (Raise (AssertionError []), after_request w (delete_req U document_id))))
  /\
  (forall project_id label_name templates r,
      let q := create_label_req U project_id label_name templates in
      remote w (sent w) q = Answer r ->
      (status_code r <> 201 ->
       create_label U project_id label_name templates w
       = (Raise (AssertionError [Lit "Status of request: <Response [";
                                 Interp (JNum (status_code r)); Lit "]>"]),
          after_request w q))
      /\ (forall label_id,
             status_code r = 201 ->
             body r = Some label_id ->
             forall id, Py.getitem label_id "id" = Ok id ->
             create_label U project_id label_name templates w
             = (Ok id, after_request w q))).
Proof.
  split.
  - intros document_id r Hr.
    unfold delete_file_konfuzio_api, session_delete, session_request.
    fold (delete_req U document_id). cbn. rewrite Hr.
    split; intros Hs.
    + rewrite Hs. reflexivity.
    + destruct (Z.eqb_spec (status_code r) 204); [contradiction|reflexivity].
  - intros project_id label_name templates r q Hr.
    unfold create_label, session_post, session_request.
    fold (create_label_req U project_id label_name templates). fold q.
    cbn. rewrite Hr.
    split.
    + intros Hs.
      destruct (Z.eqb_spec (status_code r) 201); [contradiction|reflexivity].
    + intros label_id Hs Hb id Hid. rewrite Hs. cbn.
      unfold response_json. rewrite Hb. cbn. rewrite Hid. reflexivity.
Qed.

Lemma delete_and_create_assert_status_witness :
  let U := example_endpoints in
  let ok200 := mkResponse 200 None None "" in
  let created := mkResponse 201 (Some (JObj [("id", JNum 12)])) None "" in
  delete_file_konfuzio_api U 7 (fresh [Answer ok200])
  = (Raise (AssertionError []), after_request (fresh [Answer ok200]) (delete_req U 7))
  /\ create_label U 3 "Name" [mkTemplate 5] (fresh [Answer created])
     = (Ok (JNum 12),
        after_request (fresh [Answer created]) (create_label_req U 3 "Name" [mkTemplate 5])).
Proof.
  intros U ok200 created. split.
  - apply (proj2 (proj1 (delete_and_create_assert_status U (fresh [Answer ok200]))
                    7 ok200 eq_refl)).
    discriminate.
  - apply (proj2 (proj2 (delete_and_create_assert_status U (fresh [Answer created]))
                    3 "Name" [mkTemplate 5] created eq_refl)
             (JObj [("id", JNum 12)])); reflexivity.
Defined.

Example delete_file_status_200 :
  fst (delete_file_konfuzio_api example_endpoints 7
         (fresh [Answer (mkResponse 200 None None "")]))
  = Raise (AssertionError []).
Proof. reflexivity. Qed.

(** ** Downloading a file *)

Lemma http_error_not_200 s : http_error s = true -> (s =? 200) = false.
Proof.
  unfold http_error. intros H. apply andb_prop in H as [H _].
  apply Z.leb_le in H. apply Z.eqb_neq. lia.
Qed.

(** The outcomes of a download by the response: with an error status (4xx,
    5xx) and a JSON body that has a detail, the not-found error with that
    detail; with any other status, a not-found error when the content type
    is none of the four accepted ones, and the content otherwise. *)
Lemma download_file_outcomes U w document_id ocr r :
  remote w (sent w) (download_req U document_id ocr) = Answer r ->
  let q := download_req U document_id ocr in
  (http_error (status_code r) = true ->
   forall d, detail r = Ok d ->
   download_file_konfuzio_api U document_id ocr w
   = (Raise (FileNotFoundError [Interp d]),
      advance w 1 [ERequest q; ELog ERROR [Lit "Requests error"]]))
  /\ (http_error (status_code r) = false ->
      not_pdf_or_image (content_type r) = true ->
      raises_not_found (download_file_konfuzio_api U document_id ocr w))
  /\ (http_error (status_code r) = false ->
      content_type r = Some "text/html" ->
      raises_not_found (download_file_konfuzio_api U document_id ocr w))
  /\ (http_error (status_code r) = false ->
      not_pdf_or_image (content_type r) = false ->
      download_file_konfuzio_api U document_id ocr w
      = (Ok (content r),
         advance w 1
           [ERequest q;
            ELog INFO [Lit "Downloaded file "; Interp (JNum document_id);
                       Lit " from "; Interp (JStr (KONFUZIO_HOST U)); Lit "."]])).
Proof.
  intros Hr q.
  assert (E : forall k : response -> M string,
             bind (session_get (req_url q)) k w = k r (after_request w q)).
  { intros k. unfold q, download_req, get_req in *. cbn.
    unfold session_get, session_request. rewrite Hr. reflexivity. }
  assert (D : download_file_konfuzio_api U document_id ocr
              = bind (session_get (req_url q)) (fun r =>
                  bind (match raise_for_status r with
                        | Ok _ => ret tt
                        | _ =>
                            if negb (status_code r =? 200) then
                              bind (log ERROR [Lit "Requests error"]) (fun _ =>
                                bind (lift (detail r)) (fun d =>
                                  raise (FileNotFoundError [Interp d])))
                            else ret tt
                        end) (fun _ =>
                    if not_pdf_or_image (content_type r) then
                      raise (FileNotFoundError
                               [Lit "CONTENT TYP of "; Interp (JNum document_id);
                                Lit " is ";
                                Interp (match content_type r with
                                        | Some t => JStr t
                                        | None => JNull
                                        end);
                                Lit " and no PDF or image."])
                    else
                      bind (log INFO [Lit "Downloaded file "; Interp (JNum document_id);
                                      Lit " from "; Interp (JStr (KONFUZIO_HOST U));
                                      Lit "."])
                        (fun _ => ret (content r))))).
  { unfold download_file_konfuzio_api, q, download_req. destruct ocr; reflexivity. }
  rewrite D, E. clear D E. unfold raise_for_status.
  assert (text_html : not_pdf_or_image (Some "text/html") = true) by reflexivity.
  repeat split.
  - intros He d Hd. rewrite He, (http_error_not_200 _ He). cbn.
    rewrite Hd. cbn. unfold advance. rewrite Nat.add_1_r, <- app_assoc. reflexivity.
  - intros He Hc. rewrite He. cbn. rewrite Hc. exact I.
  - intros He Hc. rewrite He. cbn. rewrite Hc, text_html. exact I.
  - intros He Hc. rewrite He. cbn. rewrite Hc. cbn.
    unfold advance. rewrite Nat.add_1_r, <- app_assoc. reflexivity.
Qed.

(** C8.  A response with status 404 and content type [text/html] whose
    body is an HTML page does not end [download_file_konfuzio_api] with the
    not-found error: the handler sets out to raise it, but decoding the body
    for its detail raises [JSONDecodeError] first.  The same response with
    status 200 takes the content-type path, which does raise the not-found
    error. *)
Theorem download_html_404_not_a_not_found_error :
  let r := mkResponse 404 None (Some "text/html") "<html>Not Found</html>" in
  let r200 := mkResponse 200 None (Some "text/html") "<html>Not Found</html>" in
  let out := download_file_konfuzio_api example_endpoints 7 true (fresh [Answer r]) in
  let out200 :=
    download_file_konfuzio_api example_endpoints 7 true (fresh [Answer r200]) in
  content_type r = Some "text/html"
  /\ fst out = Raise JSONDecodeError
  /\ ~ raises_not_found out
  /\ raises_not_found out200.
Proof. cbv. repeat split. intros H. exact H. Qed.

(** ** Paging through the documents *)

#[local] Arguments retry_get : simpl never.

Lemma meta_pages_last fuel url acc w r d items w1 :
  retry_get url w = (Ok r, w1) ->
  body r = Some (JObj d) ->
  Py.lookup "results" d = Some (JArr items) ->
  Py.lookup "next" d = None \/ Py.lookup "next" d = Some JNull ->
  meta_pages (S fuel) url acc w = (Ok (JArr (acc ++ items)), w1).
Proof.
  intros Hr Hb Hres Hnext. cbn. rewrite Hr. unfold response_json. rewrite Hb.
  cbn. rewrite Hres. cbn.
  destruct Hnext as [Hn | Hn]; rewrite Hn; reflexivity.
Qed.

Lemma meta_pages_next fuel url acc w r d items next w1 :
  retry_get url w = (Ok r, w1) ->
  body r = Some (JObj d) ->
  Py.lookup "results" d = Some (JArr items) ->
  Py.lookup "next" d = Some next ->
  Py.truthy next = true ->
  meta_pages (S fuel) url acc w = meta_pages fuel next (acc ++ items) w1.
Proof.
  intros Hr Hb Hres Hn Ht. cbn. rewrite Hr. unfold response_json. rewrite Hb.
  cbn. rewrite Hres. cbn. rewrite Hn. cbn. rewrite Ht. reflexivity.
Qed.

Lemma length_concat_sum (pages : list (list json)) :
  List.length (List.concat pages) = list_sum (map (@List.length json) pages).
Proof.
  induction pages as [|p ps IH]; cbn; [reflexivity|].
  rewrite length_app, IH. reflexivity.
Qed.

(** Enough fuel for the pages gives the items of all of them. *)
Lemma meta_pages_paged :
  forall pages fuel url acc w w',
    paged w url pages w' ->
    (List.length pages <= fuel)%nat ->
    meta_pages fuel url acc w = (Ok (JArr (acc ++ List.concat pages)), w').
Proof.
  induction pages as [|items rest IH]; intros fuel url acc w w' P F; [destruct P|].
  destruct P as (r & d & w1 & Hr & Hb & Hres & Hrest).
  destruct fuel as [|fuel]; [cbn in F; lia|].
  destruct rest as [|items' rest].
  - destruct Hrest as [Hn ->].
    rewrite (meta_pages_last fuel url acc w r d items w1 Hr Hb Hres Hn).
    cbn. rewrite app_nil_r. reflexivity.
  - destruct Hrest as (next & Hn & Ht & P').
    rewrite (meta_pages_next fuel url acc w r d items next w1 Hr Hb Hres Hn Ht).
    rewrite (IH fuel next (acc ++ items)%list w1 w'); [|exact P'|cbn in F |- *; lia].
    cbn [List.concat]. rewrite <- app_assoc. reflexivity.
Qed.

(** C4.  Over pages whose bodies are dicts with [results], linked by
    [next] until it is absent or null, the loop of [get_meta_of_files] ends
    with the items of all pages, in page order: as many items as the pages
    hold together.  A body that is a plain sequence ends the loop at once
    and is the result as it is. *)
Theorem meta_pages_accumulates :
  (forall pages fuel url acc w w',
      paged w url pages w' ->
      (List.length pages <= fuel)%nat ->
      exists result,
        meta_pages fuel url acc w = (Ok (JArr result), w')
        /\ result = (acc ++ List.concat pages)%list
        /\ List.length result
           = (List.length acc + list_sum (map (@List.length json) pages))%nat)
  /\
  (forall fuel url acc w r w1 items,
      retry_get url w = (Ok r, w1) ->
      body r = Some (JArr items) ->
      meta_pages (S fuel) url acc w = (Ok (JArr items), w1)).
Proof.
  split.
  - intros pages fuel url acc w w' P F.
    exists (acc ++ List.concat pages)%list.
    split; [exact (meta_pages_paged pages fuel url acc w w' P F)|].
    split; [reflexivity | rewrite length_app, length_concat_sum; reflexivity].
  - intros fuel url acc w r w1 items Hr Hb.
    cbn. rewrite Hr. unfold response_json. rewrite Hb. reflexivity.
Qed.

Lemma meta_pages_accumulates_witness :
  let url := JStr "https://host/api/docs/meta/" in
  let url2 := JStr "https://host/api/docs/meta/?page=2" in
  let first := [document 5 2; document 1 3] in
  let second := [document 4 0] in
  let w := fresh [Answer (page first url2); Answer (page second JNull)] in
  let flat := fresh [Answer (mkResponse 200 (Some (JArr second)) None "")] in
  meta_pages 2 url [] w
  = (Ok (JArr (first ++ second)),
     advance w 2 [ERequest (get_req url); ERequest (get_req url2)])
  /\ meta_pages 1 url first flat
     = (Ok (JArr second), after_request flat (get_req url)).
Proof.
  intros url url2 first second w flat. split.
  - destruct (proj1 meta_pages_accumulates [first; second] 2%nat url [] w
                (advance w 2 [ERequest (get_req url); ERequest (get_req url2)]))
      as (result & E & R & _).
    + exists (page first url2). eexists. exists (after_request w (get_req url)).
      split; [reflexivity|]. split; [reflexivity|]. split; [reflexivity|].
      exists url2. split; [reflexivity|]. split; [reflexivity|].
      exists (page second JNull). eexists. eexists.
      split; [reflexivity|]. split; [reflexivity|]. split; [reflexivity|].
      split; [right; reflexivity | reflexivity].
    + cbn. lia.
    + rewrite E, R. reflexivity.
  - apply (proj2 meta_pages_accumulates 0%nat url first flat
             (mkResponse 200 (Some (JArr second)) None "")); reflexivity.
Defined.

(** ** The stable sort *)

Lemma insert_perm x : forall l r, Py.insert x l = Ok r -> Permutation r (x :: l).
Proof.
  induction l as [|y l IH]; intros r H; cbn in H.
  - inversion H. apply Permutation_refl.
  - destruct (Py.lt (fst y) (fst x)) as [[|]| |]; try discriminate.
    + destruct (Py.insert x l) as [r'| |]; try discriminate.
      inversion H. rewrite perm_swap. apply perm_skip. apply IH. reflexivity.
    + inversion H. apply Permutation_refl.
Qed.

Lemma sort_keyed_perm : forall l s, Py.sort_keyed l = Ok s -> Permutation s l.
Proof.
  induction l as [|x l IH]; intros s H; cbn in H.
  - inversion H. apply Permutation_refl.
  - destruct (Py.sort_keyed l) as [s'| |]; try discriminate.
    apply insert_perm in H. rewrite H. apply perm_skip. apply IH. reflexivity.
Qed.

Lemma insert_hd x : forall l r,
    Py.insert x l = Ok r ->
    exists r', r = x :: r' \/ (exists y l', l = y :: l' /\ r = y :: r'
                                            /\ Py.lt (fst y) (fst x) = Ok true).
Proof.
  intros l r H. destruct l as [|y l]; cbn in H.
  - inversion H. exists []. left. reflexivity.
  - destruct (Py.lt (fst y) (fst x)) as [[|]| |] eqn:E; try discriminate.
    + destruct (Py.insert x l) as [r'| |]; try discriminate.
      inversion H. exists r'. right. exists y, l. auto.
    + inversion H. exists (y :: l). left. reflexivity.
Qed.

Lemma insert_sorted x : forall l r,
    Py.insert x l = Ok r -> Sorted placed l -> Sorted placed r.
Proof.
  induction l as [|y l IH]; intros r H S; cbn in H.
  - inversion H. repeat constructor.
  - destruct (Py.lt (fst y) (fst x)) as [[|]| |] eqn:E; try discriminate.
    + destruct (Py.insert x l) as [r'| |] eqn:I; try discriminate.
      inversion H; subst r. inversion S as [|? ? S' Hd]; subst.
      constructor; [apply IH; [reflexivity | exact S']|].
      destruct (insert_hd x l r' I) as (r'' & [-> | (z & l' & -> & -> & _)]).
      * constructor. right. exact E.
      * constructor. inversion Hd. assumption.
    + inversion H. constructor; [exact S|]. constructor. left. exact E.
Qed.

Lemma sort_keyed_sorted : forall l s, Py.sort_keyed l = Ok s -> Sorted placed s.
Proof.
  induction l as [|x l IH]; intros s H; cbn in H.
  - inversion H. constructor.
  - destruct (Py.sort_keyed l) as [s'| |] eqn:E; try discriminate.
    apply (insert_sorted x s' s H). apply IH. reflexivity.
Qed.

(** Keys that can all be compared with one another are sorted without an
    exception. *)
Lemma insert_total x : forall l,
    Forall (fun y => comparable y x) l -> exists r, Py.insert x l = Ok r.
Proof.
  induction l as [|y l IH]; intros F; cbn.
  - eexists. reflexivity.
  - inversion F as [|? ? [b Hb] F']; subst. rewrite Hb.
    destruct b; [|eexists; reflexivity].
    destruct (IH F') as [r ->]. eexists. reflexivity.
Qed.

Lemma sort_keyed_total : forall l,
    (forall x y, In x l -> In y l -> comparable x y) ->
    exists s, Py.sort_keyed l = Ok s.
Proof.
  induction l as [|x l IH]; intros C; cbn.
  - eexists. reflexivity.
  - destruct IH as [s E]; [intros; apply C; right; assumption|].
    rewrite E. apply insert_total. apply Forall_forall. intros y Hy.
    apply C; [right|left; reflexivity].
    apply (Permutation_in _ (sort_keyed_perm l s E)). exact Hy.
Qed.

Lemma mapM_keys (key : json -> result json) : forall l keys,
    Py.mapM key l = Ok keys ->
    map snd (combine keys l) = l
    /\ Forall (fun p => key (snd p) = Ok (fst p)) (combine keys l).
Proof.
  induction l as [|x l IH]; intros keys H; cbn in H.
  - inversion H. split; constructor.
  - destruct (key x) as [k| |] eqn:K; try discriminate.
    destruct (Py.mapM key l) as [ks| |]; try discriminate.
    inversion H. destruct (IH ks eq_refl) as [M F]. cbn. rewrite M.
    split; [reflexivity|]. constructor; assumption.
Qed.

Lemma mapM_total (key : json -> result json) (f : json -> json) : forall l,
    Forall (fun x => key x = Ok (f x)) l -> Py.mapM key l = Ok (map f l).
Proof.
  induction l as [|x l IH]; intros F; cbn; [reflexivity|].
  inversion F as [|? ? Hx F']; subst. rewrite Hx, (IH F'). reflexivity.
Qed.

(** What [sorted] returns: the elements, rearranged, with their keys in
    the order in which the comparisons placed them. *)
Lemma sorted_spec key l out :
  Py.sorted key (JArr l) = Ok out ->
  exists s,
    out = map snd s
    /\ Permutation out l
    /\ Sorted placed s
    /\ Forall (fun p => key (snd p) = Ok (fst p)) s.
Proof.
  unfold Py.sorted. cbn. intros H.
  destruct (Py.mapM key l) as [keys| |] eqn:K; try discriminate.
  destruct (Py.sort_keyed (combine keys l)) as [s| |] eqn:E; try discriminate.
  inversion H. exists s. destruct (mapM_keys key l keys K) as [M F].
  pose proof (sort_keyed_perm _ _ E) as P.
  split; [reflexivity|]. split; [|split].
  - eapply Permutation_trans; [apply Permutation_map, P|]. rewrite M. reflexivity.
  - apply (sort_keyed_sorted _ _ E).
  - apply Forall_forall. intros p Hp. rewrite Forall_forall in F.
    apply F. apply (Permutation_in _ P). exact Hp.
Qed.

Lemma filterM_total {A : Type} (c : A -> result bool) (f : A -> bool) : forall l,
    Forall (fun x => c x = Ok (f x)) l -> Py.filterM c l = Ok (filter f l).
Proof.
  induction l as [|x l IH]; intros F; cbn; [reflexivity|].
  inversion F as [|? ? Hx F']; subst. rewrite Hx, (IH F'). cbn.
  destruct (f x); reflexivity.
Qed.

Lemma filterM_chosen {A : Type} (c : A -> result bool) : forall l r,
    Py.filterM c l = Ok r -> chosen c l r.
Proof.
  induction l as [|x l IH]; intros r H; cbn in H.
  - inversion H. constructor.
  - destruct (c x) as [b| |] eqn:C; try discriminate.
    destruct (Py.filterM c l) as [r'| |]; try discriminate. cbn in H.
    inversion H. destruct b; [apply chosen_keep | apply chosen_drop]; auto.
Qed.

(** ** Annotations in the order of their offsets *)

Lemma offset_le_trans : Transitive offset_le.
Proof.
  intros [a|] [b|] [c|]; cbn; intros; try lia; try contradiction; exact I.
Qed.

Lemma bind_Ok {A B : Type} (c : M A) (k : A -> M B) w b w' :
  bind c k w = (Ok b, w') -> exists a w1, c w = (Ok a, w1) /\ k a w1 = (Ok b, w').
Proof.
  cbn. destruct (c w) as [[a| |] w1]; try discriminate.
  intros H. exists a, w1. split; [reflexivity | exact H].
Qed.

Lemma lift_Ok {A : Type} (c : result A) w a w' :
  lift c w = (Ok a, w') -> c = Ok a /\ w' = w.
Proof. unfold lift. intros H. inversion H. split; reflexivity. Qed.

Lemma result_bind_Ok {A B : Type} (c : result A) (k : A -> result B) b :
  bind c k = Ok b -> exists a, c = Ok a /\ k a = Ok b.
Proof.
  cbn. destruct c as [a| |]; try discriminate. intros H. exists a. auto.
Qed.

(** The keys of the two sorts, on a dict. *)
Lemma offset_key_spec x k :
  offset_key x = Ok k ->
  k = JArr [JBool (is_none (field "start_offset" x)); field "start_offset" x].
Proof.
  unfold offset_key, Py.get, field. destruct x; try discriminate. cbn.
  destruct (Py.lookup "start_offset" d); intros H; inversion H; reflexivity.
Qed.

Lemma itemgetter_spec key x k : Py.itemgetter key x = Ok k -> k = field key x /\
                                                        exists d, x = JObj d.
Proof.
  unfold Py.itemgetter, Py.getitem, field. destruct x; try discriminate.
  destruct (Py.lookup key d); intros H; inversion H. split; [reflexivity|].
  eexists. reflexivity.
Qed.

Lemma tuple_key_lt v v' :
  (v = JNull \/ exists n, v = JNum n) ->
  (v' = JNull \/ exists n, v' = JNum n) ->
  Py.lt (JArr [JBool (is_none v); v]) (JArr [JBool (is_none v'); v'])
  = Ok match v, v' with
       | JNum m, JNum n => m <? n
       | JNum _, _ => true
       | _, _ => false
       end.
Proof.
  intros [-> | [m ->]] [-> | [n ->]]; cbn; try reflexivity.
  destruct (Z.eqb_spec m n) as [->|]; [rewrite Z.ltb_irrefl|]; reflexivity.
Qed.

Lemma placed_by_offset_key p q :
  offset_key (snd p) = Ok (fst p) -> offset_key (snd q) = Ok (fst q) ->
  offset_ok (snd p) -> offset_ok (snd q) -> placed p q ->
  offset_le (start_offset (snd p)) (start_offset (snd q)).
Proof.
  intros Kp Kq Op Oq. apply offset_key_spec in Kp, Kq.
  unfold placed, start_offset. rewrite Kp, Kq.
  rewrite !tuple_key_lt by assumption.
  destruct Op as [-> | [m ->]], Oq as [-> | [n ->]]; cbn;
    intros [H | H]; inversion H; try exact I.
  - apply Z.ltb_ge. assumption.
  - apply Z.lt_le_incl, Z.ltb_lt. assumption.
Qed.

Lemma placed_by_itemgetter p q :
  Py.itemgetter "start_offset" (snd p) = Ok (fst p) ->
  Py.itemgetter "start_offset" (snd q) = Ok (fst q) ->
  offset_ok (snd p) -> offset_ok (snd q) -> placed p q ->
  offset_le (start_offset (snd p)) (start_offset (snd q)).
Proof.
  intros Kp Kq Op Oq. apply itemgetter_spec in Kp as [Kp _], Kq as [Kq _].
  unfold placed, start_offset. rewrite Kp, Kq.
  destruct Op as [-> | [m ->]], Oq as [-> | [n ->]]; cbn;
    intros [H | H]; inversion H.
  - apply Z.ltb_ge. assumption.
  - apply Z.lt_le_incl, Z.ltb_lt. assumption.
Qed.

(** Keyed elements that the sort has placed are in the order of their
    offsets as soon as the placing of two neighbours says so. *)
Lemma placed_nulls_last (key : json -> result json) :
  (forall p q,
      key (snd p) = Ok (fst p) -> key (snd q) = Ok (fst q) ->
      offset_ok (snd p) -> offset_ok (snd q) -> placed p q ->
      offset_le (start_offset (snd p)) (start_offset (snd q))) ->
  forall s,
    Forall (fun p => key (snd p) = Ok (fst p)) s ->
    Forall offset_ok (map snd s) ->
    Sorted placed s ->
    nulls_last (map snd s).
Proof.
  intros step s K O S. unfold nulls_last.
  apply Sorted_StronglySorted; [exact offset_le_trans|].
  induction S as [|p s S IH Hd]; cbn; [constructor|].
  inversion K as [|? ? Kp K']; subst. inversion O as [|? ? Op O']; subst.
  constructor; [apply IH; assumption|].
  destruct Hd as [|q s' Hpq]; cbn; constructor.
  inversion K' as [|? ? Kq _]; subst. inversion O' as [|? ? Oq _]; subst.
  apply step; assumption.
Qed.

Lemma sorted_nulls_last key l out :
  (forall p q,
      key (snd p) = Ok (fst p) -> key (snd q) = Ok (fst q) ->
      offset_ok (snd p) -> offset_ok (snd q) -> placed p q ->
      offset_le (start_offset (snd p)) (start_offset (snd q))) ->
  Py.sorted key (JArr l) = Ok out ->
  Forall offset_ok out ->
  nulls_last out.
Proof.
  intros step H O. destruct (sorted_spec key l out H) as (s & -> & _ & S & K).
  apply (placed_nulls_last key step); assumption.
Qed.

Lemma get_document_sections_sorted U document_id w out w' :
  get_document_sections U document_id w = (Ok out, w') ->
  exists l, Py.sorted (Py.itemgetter "start_offset") (JArr l) = Ok out.
Proof.
  unfold get_document_sections. intros H.
  apply bind_Ok in H as (r & w1 & _ & H).
  apply bind_Ok in H as (data & w2 & _ & H).
  apply bind_Ok in H as (annotations & w3 & _ & H).
  apply bind_Ok in H as (l & w4 & _ & H).
  apply bind_Ok in H as (sorted_annotations & w5 & S & H).
  apply lift_Ok in S as [S _]. inversion H; subst. exists l. exact S.
Qed.

Lemma get_document_annotations_sorted U document_id include_extractions w out w' :
  get_document_annotations U document_id include_extractions w = (Ok out, w') ->
  exists l, Py.sorted offset_key (JArr l) = Ok out.
Proof.
  unfold get_document_annotations. intros H.
  apply bind_Ok in H as (r & w1 & _ & H).
  apply bind_Ok in H as (data & w2 & _ & H).
  apply bind_Ok in H as (annotations & w3 & _ & H).
  apply bind_Ok in H as (l & w4 & _ & H).
  apply bind_Ok in H as (sorted_annotations & w5 & S & H).
  apply lift_Ok in S as [S _].
  apply bind_Ok in H as (u & w6 & _ & H).
  inversion H; subst. exists l. exact S.
Qed.


Ltac offset_case := (left; reflexivity) || (right; eexists; reflexivity).

(** [get_document_sections] has no place for a null offset: with two
    annotations to order, the comparison raises. *)
Example get_document_sections_null_offset :
  let a := annotation (JNum 1) true false (JNum 8) in
  let c := annotation (JNum 3) true false JNull in
  fst (get_document_sections example_endpoints 7 (fresh [Answer (details [a; c])]))
  = Raise TypeError.
Proof. reflexivity. Qed.

(** ** The annotations of a document *)

Lemma revised_or_correct_or_local_spec x :
  annotation_ok x -> revised_or_correct_or_local x = Ok (kept x).
Proof.
  intros [(d & -> & R & C & I) _]. unfold revised_or_correct_or_local, kept.
  cbn.
  destruct (Py.lookup "revised" d) as [a|]; [|contradiction].
  destruct (Py.lookup "is_correct" d) as [b|]; [|contradiction].
  destruct (Py.lookup "id" d) as [c|]; [|contradiction].
  cbn. destruct (Py.truthy a); [reflexivity|].
  cbn. destruct (Py.truthy b); reflexivity.
Qed.

Lemma offset_key_total x :
  annotation_ok x ->
  offset_key x
  = Ok (JArr [JBool (is_none (field "start_offset" x)); field "start_offset" x]).
Proof.
  intros [(d & -> & _) _]. unfold offset_key, field. cbn.
  destruct (Py.lookup "start_offset" d); reflexivity.
Qed.

Lemma sorted_total key f l :
  Forall (fun x => key x = Ok (f x)) l ->
  (forall x y, In x l -> In y l -> exists b, Py.lt (f x) (f y) = Ok b) ->
  exists out, Py.sorted key (JArr l) = Ok out.
Proof.
  intros K C. unfold Py.sorted. cbn. rewrite (mapM_total key f l K).
  destruct (sort_keyed_total (combine (map f l) l)) as [s E].
  - assert (P : forall p, In p (combine (map f l) l) -> fst p = f (snd p) /\ In (snd p) l).
    { clear. induction l as [|x l IH]; cbn; [contradiction|].
      intros p [<- | H]; [cbn; auto|]. destruct (IH p H). auto. }
    intros p q Hp Hq. apply P in Hp as [Ep Ip], Hq as [Eq Iq].
    unfold comparable. rewrite Ep, Eq. apply C; assumption.
  - rewrite E. eexists. reflexivity.
Qed.

(** C6.  When the details of the document come with well-formed
    annotations, [get_document_annotations] returns the annotations that
    are revised, or marked correct, or without an identifier of the server,
    all of them and no other, in ascending order of the start offsets with
    the null offsets last. *)
Theorem get_document_annotations_spec U document_id include_extractions w r w1 data anns :
  retry_get (JStr (get_document_api_details_url U document_id
                     (Some include_extractions) None)) w = (Ok r, w1) ->
  body r = Some data ->
  Py.getitem data "annotations" = Ok (JArr anns) ->
  Forall annotation_ok anns ->
  exists out,
    get_document_annotations U document_id include_extractions w
    = (Ok out,
       advance w1 0
         [ELog INFO [Lit "Document with ID "; Interp (JNum document_id);
                     Lit " contains "; Interp (len out); Lit " annotations."]])
    /\ Permutation out (filter kept anns)
    /\ nulls_last out.
Proof.
  intros Hr Hb Ha W.
  assert (Wk : Forall annotation_ok (filter kept anns)).
  { apply Forall_forall. intros x Hx. apply filter_In in Hx as [Hx _].
    rewrite Forall_forall in W. apply W. exact Hx. }
  destruct (sorted_total offset_key
              (fun x => JArr [JBool (is_none (field "start_offset" x));
                              field "start_offset" x])
              (filter kept anns)) as [out S].
  { apply Forall_forall. intros x Hx. rewrite Forall_forall in Wk.
    apply offset_key_total, Wk, Hx. }
  { intros x y Hx Hy. rewrite Forall_forall in Wk.
    rewrite tuple_key_lt by (apply Wk; assumption). eexists. reflexivity. }
  exists out.
  destruct (sorted_spec _ _ _ S) as (s & E & P & _).
  assert (O : Forall offset_ok out).
  { apply Forall_forall. intros x Hx. rewrite Forall_forall in Wk.
    apply Wk. apply (Permutation_in _ P). exact Hx. }
  split; [|split; [exact P | exact (sorted_nulls_last _ _ _ placed_by_offset_key S O)]].
  unfold get_document_annotations. cbn -[Py.sorted]. rewrite Hr.
  unfold response_json. rewrite Hb. cbn -[Py.sorted]. rewrite Ha.
  cbn -[Py.sorted].
  rewrite (filterM_total _ kept anns)
    by (apply Forall_forall; intros x Hx; rewrite Forall_forall in W;
        apply revised_or_correct_or_local_spec, W, Hx).
  rewrite S. unfold advance. rewrite Nat.add_0_r. reflexivity.
Qed.

Lemma get_document_annotations_spec_witness :
  let U := example_endpoints in
  let a := annotation (JNum 1) true false JNull in
  let b := annotation (JNum 2) false false (JNum 3) in
  let c := annotation JNull false false (JNum 9) in
  let d := annotation (JNum 4) false true (JNum 5) in
  let w := fresh [Answer (details [a; b; c; d])] in
  exists out,
    fst (get_document_annotations U 7 false w) = Ok out
    /\ Permutation out [a; c; d]
    /\ nulls_last out.
Proof.
  intros U a b c d w.
  destruct (get_document_annotations_spec U 7 false w (details [a; b; c; d])
              (after_request w (get_req (JStr "https://host/api/docs/")))
              (JObj [("annotations", JArr [a; b; c; d])]) [a; b; c; d])
    as (out & E & P & S).
  - reflexivity.
  - reflexivity.
  - reflexivity.
  - repeat (apply Forall_cons;
            [split; [eexists; split; [reflexivity|]; repeat split; discriminate
                    | offset_case]|]).
    apply Forall_nil.
  - exists out. rewrite E. split; [reflexivity|]. split; [exact P | exact S].
Defined.

Example get_document_annotations_run :
  let a := annotation (JNum 1) true false JNull in
  let b := annotation (JNum 2) false false (JNum 3) in
  let c := annotation JNull false false (JNum 9) in
  let d := annotation (JNum 4) false true (JNum 5) in
  fst (get_document_annotations example_endpoints 7 false
         (fresh [Answer (details [a; b; c; d])]))
  = Ok [d; c; a].
Proof. reflexivity. Qed.

(** ** The documents of the data set *)

Lemma placed_numeric p q : placed p q -> numeric_le p q.
Proof.
  unfold placed, numeric_le. destruct p as [kp x], q as [kq y]. cbn.
  intros H m Hm.
  destruct kp as [|bp|np| | |]; try discriminate;
    destruct kq as [|bq|nq| | |]; cbn in *;
    try (destruct H as [H | H]; discriminate);
    inversion Hm; subst; eexists; (split; [reflexivity|]);
    destruct H as [H | H]; inversion H;
    try (apply Z.ltb_ge; assumption);
    try (apply Z.lt_le_incl, Z.ltb_lt; assumption).
Qed.

Lemma sorted_numeric_tail : forall s p m,
    Sorted placed (p :: s) -> numeric (fst p) = Some m ->
    Forall (fun q => exists n, numeric (fst q) = Some n /\ m <= n) s.
Proof.
  induction s as [|q s IH]; intros p m S Hm; [constructor|].
  inversion S as [|? ? S' Hd]; subst. inversion Hd as [|? ? Hpq]; subst.
  destruct (placed_numeric p q Hpq m Hm) as (n & Hn & Hle).
  constructor; [exists n; auto|].
  apply (Forall_impl _ (P := fun q => exists n', numeric (fst q) = Some n' /\ n <= n')).
  - intros r (n' & Hn' & Hle'). exists n'. split; [assumption | lia].
  - apply (IH q n S' Hn).
Qed.

Lemma sorted_numeric s : Sorted placed s -> StronglySorted numeric_le s.
Proof.
  induction 1 as [|p s S IH Hd]; constructor; [exact IH|].
  apply Forall_forall. intros q Hq m Hm.
  pose proof (sorted_numeric_tail s p m (Sorted_cons S Hd) Hm) as F.
  rewrite Forall_forall in F. apply F. exact Hq.
Qed.

Lemma numeric_le_id_le p q :
  Py.itemgetter "id" (snd p) = Ok (fst p) ->
  Py.itemgetter "id" (snd q) = Ok (fst q) ->
  numeric_le p q -> id_le (snd p) (snd q).
Proof.
  unfold Py.itemgetter. intros Kp Kq H m n Hm Hn.
  rewrite Hm in Kp. rewrite Hn in Kq. inversion Kp as [Ep]. inversion Kq as [Eq].
  destruct (H m) as (n' & Hn' & Hle); [rewrite <- Ep; reflexivity|].
  rewrite <- Eq in Hn'. inversion Hn'. lia.
Qed.

Lemma sorted_by_id s :
  Forall (fun p => Py.itemgetter "id" (snd p) = Ok (fst p)) s ->
  Sorted placed s ->
  StronglySorted id_le (map snd s).
Proof.
  intros K S. apply sorted_numeric in S.
  induction S as [|p s S IH F]; cbn; constructor.
  - apply IH. inversion K. assumption.
  - inversion K as [|? ? Kp K']; subst.
    apply Forall_forall. intros y Hy. apply in_map_iff in Hy as (q & <- & Hq).
    rewrite Forall_forall in F, K'.
    apply numeric_le_id_le; [exact Kp | apply K', Hq | apply F, Hq].
Qed.

Lemma chosen_Forall {A : Type} (c : A -> result bool) (P : A -> Prop) l r :
  chosen c l r -> Forall P l -> Forall P r.
Proof.
  induction 1; intros F; inversion F; subst; auto.
Qed.

Lemma chosen_sorted {A : Type} (c : A -> result bool) (R : A -> A -> Prop) l r :
  chosen c l r -> StronglySorted R l -> StronglySorted R r.
Proof.
  induction 1 as [|x l r Hx C IH|x l r C IH]; intros S; [constructor| |].
  - inversion S as [|? ? S' F]; subst. constructor; [apply IH, S'|].
    apply (chosen_Forall c _ l r C F).
  - inversion S; subst. apply IH. assumption.
Qed.

Lemma chosen_holds {A : Type} (c : A -> result bool) l r :
  chosen c l r -> Forall (fun x => c x = Ok true) r.
Proof. induction 1; auto. Qed.

Lemma in_dataset_spec x : in_dataset x = Ok true -> in_training_or_test x.
Proof.
  unfold in_dataset, in_training_or_test. intros H.
  apply result_bind_Ok in H as (s & -> & H).
  assert (E : Py.eq (JNum 2) s || (Py.eq (JNum 3) s || false) = true)
    by (inversion H; reflexivity).
  clear H. destruct s as [|b|n| | |]; try discriminate E.
  - destruct b; discriminate E.
  - apply orb_prop in E as [E | E].
    + left. apply (Z.eqb_eq 2 n) in E. subst n. reflexivity.
    + right. rewrite orb_false_r in E. apply (Z.eqb_eq 3 n) in E. subst n.
      reflexivity.
Qed.

Lemma sorted_iter key xs out :
  Py.sorted key xs = Ok out ->
  exists l, Py.iter xs = Ok l /\ Py.sorted key (JArr l) = Ok out.
Proof.
  unfold Py.sorted. intros H.
  destruct (Py.iter xs) as [l| |] eqn:I; try discriminate.
  exists l. split; [reflexivity | exact H].
Qed.

(** Lines 347 to 349 on their own. *)
Lemma sorted_dataset_documents_spec fetched docs :
  sorted_dataset_documents fetched = Ok docs ->
  Forall in_training_or_test docs /\ StronglySorted id_le docs.
Proof.
  unfold sorted_dataset_documents. intros H.
  apply result_bind_Ok in H as (sd & S & F).
  apply sorted_iter in S as (l & _ & S).
  destruct (sorted_spec _ _ _ S) as (s & -> & _ & P & K).
  apply filterM_chosen in F. split.
  - apply chosen_holds in F. apply (Forall_impl _ in_dataset_spec F).
  - apply (chosen_sorted _ _ _ _ F). apply sorted_by_id; assumption.
Qed.

(** With integer identifiers throughout, the order is the plain one. *)
Lemma id_le_integers (ids : list (Z * Z)) :
  StronglySorted id_le (map (fun d => document (fst d) (snd d)) ids) ->
  StronglySorted Z.le (map fst ids).
Proof.
  induction ids as [|[i s] ids IH]; cbn; intros S; [constructor|].
  inversion S as [|? ? S' F]; subst. constructor; [apply IH, S'|].
  apply Forall_forall. intros j Hj. apply in_map_iff in Hj as ([j' s'] & <- & Hj).
  rewrite Forall_forall in F.
  apply (F (document j' s')); [|reflexivity|reflexivity].
  apply in_map_iff. exists (j', s'). auto.
Qed.

(** ** The operations return on well-formed data *)

Lemma Permutation_filter {A : Type} (f : A -> bool) (l l' : list A) :
  Permutation l l' -> Permutation (filter f l) (filter f l').
Proof.
  induction 1 as [|x l l' P IH|x y l|l l' l'' P IH P' IH']; cbn.
  - constructor.
  - destruct (f x); [apply perm_skip|]; exact IH.
  - destruct (f x), (f y); try apply Permutation_refl. apply perm_swap.
  - exact (Permutation_trans IH IH').
Qed.

Lemma in_dataset_total x :
  document_ok x -> in_dataset x = Ok (training_or_test x).
Proof.
  intros (d & -> & _ & S). unfold in_dataset, training_or_test, field. cbn.
  destruct (Py.lookup "dataset_status" d); [reflexivity | contradiction].
Qed.

Lemma itemgetter_id_total x :
  document_ok x -> Py.itemgetter "id" x = Ok (field "id" x).
Proof.
  intros (d & -> & (i & I) & _). unfold Py.itemgetter, field. cbn.
  rewrite I. reflexivity.
Qed.

Lemma document_ok_id x : document_ok x -> exists i, field "id" x = JNum i.
Proof.
  intros (d & -> & (i & I) & _). exists i. unfold field. rewrite I. reflexivity.
Qed.

Lemma sorted_dataset_documents_total l :
  Forall document_ok l ->
  exists docs,
    sorted_dataset_documents (JArr l) = Ok docs
    /\ Permutation docs (filter training_or_test l).
Proof.
  intros W. rewrite Forall_forall in W.
  destruct (sorted_total (Py.itemgetter "id") (field "id") l) as [sd S].
  - apply Forall_forall. intros x Hx. apply itemgetter_id_total, W, Hx.
  - intros x y Hx Hy.
    destruct (document_ok_id x (W x Hx)) as [i ->].
    destruct (document_ok_id y (W y Hy)) as [j ->].
    eexists. reflexivity.
  - destruct (sorted_spec _ _ _ S) as (s & _ & P & _).
    exists (filter training_or_test sd). split.
    + unfold sorted_dataset_documents. rewrite S. cbn.
      apply filterM_total. apply Forall_forall. intros x Hx.
      apply in_dataset_total, W. apply (Permutation_in _ P). exact Hx.
    + apply Permutation_filter. exact P.
Qed.

(** Over well-formed pages [get_meta_of_files] returns, and what it returns
    are the documents of the training and test sets, all of them. *)
Lemma get_meta_of_files_returns U fuel w pages w' :
  paged w (JStr (get_documents_meta_url U)) pages w' ->
  (List.length pages <= fuel)%nat ->
  Forall document_ok (List.concat pages) ->
  exists docs,
    get_meta_of_files U fuel w = (Ok docs, w')
    /\ Permutation docs (filter training_or_test (List.concat pages)).
Proof.
  intros P F W.
  pose proof (meta_pages_paged pages fuel _ [] w w' P F) as E.
  destruct (sorted_dataset_documents_total _ W) as (docs & S & Pm).
  exists docs. split; [|exact Pm].
  unfold get_meta_of_files. cbn. rewrite E. cbn in S |- *. rewrite S. reflexivity.
Qed.

Lemma revised_or_correct_spec x :
  section_annotation_ok x -> revised_or_correct x = Ok (revised_or_marked x).
Proof.
  intros (d & -> & R & C & _). unfold revised_or_correct, revised_or_marked. cbn.
  destruct (Py.lookup "revised" d) as [a|]; [|contradiction].
  destruct (Py.lookup "is_correct" d) as [b|]; [|contradiction].
  cbn. destruct (Py.truthy a); reflexivity.
Qed.

Lemma section_annotation_offset x :
  section_annotation_ok x ->
  Py.itemgetter "start_offset" x = Ok (field "start_offset" x)
  /\ exists n, field "start_offset" x = JNum n.
Proof.
  intros (d & -> & _ & _ & n & O). unfold Py.itemgetter, field. cbn. rewrite O.
  split; [reflexivity | exists n; reflexivity].
Qed.

(** With integer offsets, [get_document_sections] returns the annotations
    that are revised or marked correct, in ascending order. *)
Lemma get_document_sections_returns U document_id w r w1 data anns :
  retry_get (JStr (get_document_api_details_url U document_id None None)) w
  = (Ok r, w1) ->
  body r = Some data ->
  Py.getitem data "annotations" = Ok (JArr anns) ->
  Forall section_annotation_ok anns ->
  exists out,
    get_document_sections U document_id w = (Ok out, w1)
    /\ Permutation out (filter revised_or_marked anns)
    /\ nulls_last out.
Proof.
  intros Hr Hb Ha W. rewrite Forall_forall in W.
  assert (Wk : forall x, In x (filter revised_or_marked anns) ->
                         section_annotation_ok x).
  { intros x Hx. apply filter_In in Hx as [Hx _]. apply W, Hx. }
  destruct (sorted_total (Py.itemgetter "start_offset") (field "start_offset")
              (filter revised_or_marked anns)) as [out S].
  { apply Forall_forall. intros x Hx. apply section_annotation_offset, Wk, Hx. }
  { intros x y Hx Hy.
    destruct (section_annotation_offset x (Wk x Hx)) as [_ [m ->]].
    destruct (section_annotation_offset y (Wk y Hy)) as [_ [n ->]].
    eexists. reflexivity. }
  exists out. destruct (sorted_spec _ _ _ S) as (s & E & P & _).
  assert (O : Forall offset_ok out).
  { apply Forall_forall. intros x Hx. right.
    apply section_annotation_offset, Wk. apply (Permutation_in _ P). exact Hx. }
  split; [|split; [exact P | exact (sorted_nulls_last _ _ _ placed_by_itemgetter S O)]].
  unfold get_document_sections. cbn -[Py.sorted]. rewrite Hr.
  unfold response_json. rewrite Hb. cbn -[Py.sorted]. rewrite Ha.
  cbn -[Py.sorted].
  rewrite (filterM_total _ revised_or_marked anns)
    by (apply Forall_forall; intros x Hx; apply revised_or_correct_spec, W, Hx).
  rewrite S. reflexivity.
Qed.

(** A status that is neither a success nor an error passes
    [raise_for_status], and the file is returned. *)
Example download_file_status_304 :
  fst (download_file_konfuzio_api example_endpoints 7 true
         (fresh [Answer (mkResponse 304 None (Some "application/pdf") "%PDF")]))
  = Ok "%PDF".
Proof. reflexivity. Qed.

(** ** The lists that the operations return *)

(** C5.  Every list of documents that [get_meta_of_files] returns holds
    only documents whose [dataset_status] is 2 or 3, and their identifiers
    never decrease along the list.  Over well-formed pages the call does
    return, with all the documents of the two sets. *)
Theorem get_meta_of_files_spec U fuel w :
  (forall docs w',
      get_meta_of_files U fuel w = (Ok docs, w') ->
      Forall in_training_or_test docs /\ StronglySorted id_le docs)
  /\
  (forall pages w',
      paged w (JStr (get_documents_meta_url U)) pages w' ->
      (List.length pages <= fuel)%nat ->
      Forall document_ok (List.concat pages) ->
      exists docs,
        get_meta_of_files U fuel w = (Ok docs, w')
        /\ Permutation docs (filter training_or_test (List.concat pages))).
Proof.
  split.
  - unfold get_meta_of_files. intros docs w' H.
    apply bind_Ok in H as (fetched & w1 & _ & H).
    apply lift_Ok in H as [H _].
    exact (sorted_dataset_documents_spec fetched docs H).
  - intros pages w'. apply get_meta_of_files_returns.
Qed.

Lemma get_meta_of_files_spec_witness :
  let U := example_endpoints in
  let url2 := JStr "https://host/api/docs/meta/?page=2" in
  let first := [document 5 2; document 1 3] in
  let second := [document 4 0; document 2 2] in
  let w := fresh [Answer (page first url2); Answer (page second JNull)] in
  let docs := [document 1 3; document 2 2; document 5 2] in
  (fst (get_meta_of_files U 2 w) = Ok docs
   /\ Forall in_training_or_test docs
   /\ StronglySorted id_le docs)
  /\ exists docs',
      fst (get_meta_of_files U 2 w) = Ok docs'
      /\ Permutation docs' [document 5 2; document 1 3; document 2 2].
Proof.
  intros U url2 first second w docs. split.
  - split; [reflexivity|].
    apply (proj1 (get_meta_of_files_spec U 2 w) docs (snd (get_meta_of_files U 2 w))).
    reflexivity.
  - destruct (proj2 (get_meta_of_files_spec U 2 w) [first; second]
                (advance w 2 [ERequest (get_req (JStr (get_documents_meta_url U)));
                              ERequest (get_req url2)]))
      as (docs' & E & P).
    + exists (page first url2). eexists.
      exists (after_request w (get_req (JStr (get_documents_meta_url U)))).
      split; [reflexivity|]. split; [reflexivity|]. split; [reflexivity|].
      exists url2. split; [reflexivity|]. split; [reflexivity|].
      exists (page second JNull). eexists. eexists.
      split; [reflexivity|]. split; [reflexivity|]. split; [reflexivity|].
      split; [right; reflexivity | reflexivity].
    + cbn. lia.
    + repeat (apply Forall_cons;
              [eexists; split; [reflexivity|];
               split; [eexists; reflexivity | discriminate]|]).
      apply Forall_nil.
    + exists docs'. rewrite E. split; [reflexivity | exact P].
Defined.

(** The lists that the two operations return are in ascending order of the
    start offsets, with the offsets that are absent or null after the
    others. *)
Lemma annotation_lists_ordered U document_id w :
  (forall out w',
      get_document_sections U document_id w = (Ok out, w') ->
      Forall offset_ok out ->
      nulls_last out)
  /\
  (forall include_extractions out w',
      get_document_annotations U document_id include_extractions w = (Ok out, w') ->
      Forall offset_ok out ->
      nulls_last out)
  /\
  (forall r w1 data anns,
      retry_get (JStr (get_document_api_details_url U document_id None None)) w
      = (Ok r, w1) ->
      body r = Some data ->
      Py.getitem data "annotations" = Ok (JArr anns) ->
      Forall section_annotation_ok anns ->
      exists out,
        get_document_sections U document_id w = (Ok out, w1)
        /\ Permutation out (filter revised_or_marked anns)
        /\ nulls_last out).
Proof.
  split; [|split].
  - intros out w' H O. apply get_document_sections_sorted in H as [l S].
    exact (sorted_nulls_last _ l out placed_by_itemgetter S O).
  - intros ie out w' H O. apply get_document_annotations_sorted in H as [l S].
    exact (sorted_nulls_last _ l out placed_by_offset_key S O).
  - intros r w1 data anns. apply get_document_sections_returns.
Qed.

Lemma placed_not_null p q : placed p q -> fst p <> JNull /\ fst q <> JNull.
Proof.
  unfold placed. destruct p as [kp x], q as [kq y]. cbn.
  intros H. split; intros E; subst.
  - destruct H as [H | H]; [destruct kq|]; discriminate.
  - destruct H as [H | H]; [|destruct kp]; discriminate.
Qed.

Lemma sorted_keys_not_null : forall s p,
    Sorted placed (p :: s) -> s <> [] ->
    Forall (fun q => fst q <> JNull) (p :: s).
Proof.
  induction s as [|q s IH]; intros p S N; [contradiction|].
  inversion S as [|? ? S' Hd]; subst. inversion Hd as [|? ? Hpq]; subst.
  destruct (placed_not_null p q Hpq) as [Np Nq].
  constructor; [exact Np|].
  destruct s as [|q' s]; [constructor; [exact Nq | constructor]|].
  apply IH; [exact S' | discriminate].
Qed.

(** With two annotations or more to return, [get_document_sections] returns
    none whose start offset is null: where there is one, the sort raises. *)
Lemma get_document_sections_returns_no_null U document_id w out w' :
  get_document_sections U document_id w = (Ok out, w') ->
  (2 <= List.length out)%nat ->
  Forall (fun x => field "start_offset" x <> JNull) out.
Proof.
  intros H L. apply get_document_sections_sorted in H as [l S].
  destruct (sorted_spec _ _ _ S) as (s & -> & _ & Sp & K).
  destruct s as [|p s]; [cbn in L; lia|].
  destruct s as [|q s]; [cbn in L; lia|].
  pose proof (sorted_keys_not_null (q :: s) p Sp ltac:(discriminate)) as N.
  apply Forall_forall. intros x Hx. apply in_map_iff in Hx as (e & <- & He).
  rewrite Forall_forall in N, K.
  destruct (itemgetter_spec _ _ _ (K e He)) as [<- _]. apply N. exact He.
Qed.

(** C7.  [get_document_sections] does not put the annotations without a
    start offset last: with a null offset among two annotations it raises
    [TypeError], and with the key missing it raises [KeyError], where
    [get_document_annotations] returns the same annotations with that one
    after the other. *)
Theorem get_document_sections_null_offset_raises :
  let U := example_endpoints in
  let a := annotation (JNum 1) true false (JNum 8) in
  let c := annotation (JNum 3) true false JNull in
  let m := JObj [("id", JNum 4); ("revised", JBool true); ("is_correct", JBool false)] in
  fst (get_document_sections U 7 (fresh [Answer (details [c; a])])) = Raise TypeError
  /\ fst (get_document_annotations U 7 false (fresh [Answer (details [c; a])]))
     = Ok [a; c]
  /\ fst (get_document_sections U 7 (fresh [Answer (details [m; a])]))
     = Raise (KeyError "start_offset")
  /\ fst (get_document_annotations U 7 false (fresh [Answer (details [m; a])]))
     = Ok [a; m].
Proof. repeat split. Qed.


(** * Further properties *)

(** ** What [retry_get] does on any host *)

Lemma tally_app p es fs : tally p (es ++ fs) = (tally p es + tally p fs)%nat.
Proof. unfold tally. rewrite filter_app, length_app. reflexivity. Qed.

Lemma detail_raises r e : detail r = Raise e -> retry_get_raises e.
Proof.
  unfold detail, response_json, Py.getitem. run;
    intros H; inversion H; cbn; auto.
Qed.

(** The three ways in which the [except] block ends. *)
Lemma on_failure_cases url r rc w :
  (rc + 1 < 10
   /\ on_failure url r rc w = (Ok (rc + 1), advance w 0 [retry_warning url; ESleep 15]))
  \/ (exists e, on_failure url r rc w = (Raise e, w) /\ retry_get_raises e)
  \/ (exists e, on_failure url r rc w = (Raise e, advance w 0 [retry_warning url])
                /\ retry_get_raises e).
Proof.
  destruct r as [r|]; [|right; left; eexists; split; [reflexivity | reflexivity]].
  destruct ((401 <=? status_code r) && (status_code r <=? 403)) eqn:C.
  - right. left. unfold on_failure. cbn. rewrite C. cbn.
    destruct (detail r) as [d|e|] eqn:D; cbn.
    + eexists. split; [reflexivity | exact I].
    + eexists. split; [reflexivity | exact (detail_raises r e D)].
    + destruct (detail_returns r D).
  - destruct (status_code r =? 500) eqn:S.
    + right. left. unfold on_failure. cbn. rewrite C, S. cbn.
      destruct (detail r) as [d|e|] eqn:D; cbn.
      * eexists. split; [reflexivity | exact I].
      * eexists. split; [reflexivity | exact (detail_raises r e D)].
      * destruct (detail_returns r D).
    + unfold on_failure. cbn. rewrite C, S. cbn.
      destruct (Z.leb_spec 10 (rc + 1)) as [L | L]; cbn.
      * right. right. unfold advance. rewrite Nat.add_0_r.
        destruct (detail r) as [d|e|] eqn:D; cbn.
        -- eexists. split; [reflexivity | exact I].
        -- eexists. split; [reflexivity | exact (detail_raises r e D)].
        -- destruct (detail_returns r D).
      * left. split; [exact L|]. unfold advance.
        rewrite Nat.add_0_r, <- app_assoc. reflexivity.
Qed.

(** Everything about a run of the loop at once: the events it adds, how
    many of them are requests and sleeps, and what comes out. *)
Lemma retry_loop_effects url :
  forall fuel r rc w out w',
    (Z.to_nat (10 - rc) <= fuel)%nat -> rc < 10 ->
    retry_loop fuel url r rc w = (out, w') ->
    exists es,
      w' = advance w (tally is_request es) es
      /\ (1 <= tally is_request es <= Z.to_nat (10 - rc))%nat
      /\ (tally is_sleep es + 1 = tally is_request es)%nat
      /\ Forall (retry_event url) es
      /\ (forall r', out = Ok r' ->
                     http_error (status_code r') = false
                     /\ remote w (sent w + tally is_request es - 1) (get_req url)
                        = Answer r')
      /\ (forall e, out = Raise e -> retry_get_raises e)
      /\ out <> OutOfFuel.
Proof.
  induction fuel as [|fuel IH]; intros r rc w out w' F Hrc H; [lia|].
  rewrite retry_loop_S in H. cbv zeta in H.
  rewrite after_request_advance in H.
  assert (failed : forall r0,
             and_then (on_failure url r0 rc (advance w 1 [ERequest (get_req url)]))
               (retry_loop fuel url r0) = (out, w') ->
             exists es,
               w' = advance w (tally is_request es) es
               /\ (1 <= tally is_request es <= Z.to_nat (10 - rc))%nat
               /\ (tally is_sleep es + 1 = tally is_request es)%nat
               /\ Forall (retry_event url) es
               /\ (forall r', out = Ok r' ->
                     http_error (status_code r') = false
                     /\ remote w (sent w + tally is_request es - 1) (get_req url)
                        = Answer r')
               /\ (forall e, out = Raise e -> retry_get_raises e)
               /\ out <> OutOfFuel).
  { intros r0 H0.
    destruct (on_failure_cases url r0 rc (advance w 1 [ERequest (get_req url)]))
      as [[L E] | [(e & E & R) | (e & E & R)]]; rewrite E in H0; cbn [and_then] in H0.
    - rewrite advance_advance in H0.
      apply IH in H0 as (es & -> & B & Sl & Ev & Hok & Hraise & Hfuel); [|lia|lia].
      exists ([ERequest (get_req url)] ++ [retry_warning url; ESleep 15] ++ es)%list.
      rewrite advance_advance, !tally_app.
      change (tally is_request [ERequest (get_req url)]) with 1%nat.
      change (tally is_request [retry_warning url; ESleep 15]) with 0%nat.
      change (tally is_sleep [ERequest (get_req url)]) with 0%nat.
      change (tally is_sleep [retry_warning url; ESleep 15]) with 1%nat.
      split; [reflexivity|].
      split; [lia|]. split; [lia|].
      split.
      { apply Forall_app. split; [repeat constructor; left; reflexivity|].
        apply Forall_app. split; [|exact Ev].
        constructor; [right; left; reflexivity|].
        constructor; [right; right; reflexivity | constructor]. }
      split; [|split; assumption].
      intros r' Hr'. destruct (Hok r' Hr') as [He Ha]. split; [exact He|].
      cbn in Ha. rewrite <- Ha. f_equal. lia.
    - inversion H0; subst. exists [ERequest (get_req url)].
      change (tally is_request [ERequest (get_req url)]) with 1%nat.
      change (tally is_sleep [ERequest (get_req url)]) with 0%nat.
      split; [reflexivity|]. split; [lia|]. split; [reflexivity|].
      split; [repeat constructor; left; reflexivity|].
      split; [discriminate|]. split; [|discriminate].
      intros e' He'. inversion He'; subst. exact R.
    - inversion H0; subst. rewrite advance_advance.
      exists ([ERequest (get_req url)] ++ [retry_warning url])%list.
      change (tally is_request ([ERequest (get_req url)] ++ [retry_warning url]))
        with 1%nat.
      change (tally is_sleep ([ERequest (get_req url)] ++ [retry_warning url]))
        with 0%nat.
      split; [reflexivity|]. split; [lia|]. split; [reflexivity|].
      split.
      { constructor; [left; reflexivity|].
        constructor; [right; left; reflexivity | constructor]. }
      split; [discriminate|]. split; [|discriminate].
      intros e' He'. inversion He'; subst. exact R. }
  destruct (remote w (sent w) (get_req url)) as [r'|what] eqn:Hr; [|exact (failed r H)].
  destruct (http_error (status_code r')) eqn:He; [exact (failed (Some r') H)|].
  inversion H; subst. exists [ERequest (get_req url)].
  change (tally is_request [ERequest (get_req url)]) with 1%nat.
  change (tally is_sleep [ERequest (get_req url)]) with 0%nat.
  split; [reflexivity|]. split; [lia|]. split; [reflexivity|].
  split; [repeat constructor; left; reflexivity|].
  split; [|split; discriminate].
  intros r0 Hr0. inversion Hr0; subst. split; [exact He|].
  rewrite <- Hr. f_equal. lia.
Qed.

(** X1.  Whatever the host does, one call of [retry_get] sends at least
    one and at most ten requests, all of them the same GET; it sleeps once
    less than it sends, 15 units each time; and requests, retry warnings
    and sleeps are all it adds to the trace. *)
Theorem retry_get_at_most_ten_requests url w :
  exists es,
    snd (retry_get url w) = advance w (tally is_request es) es
    /\ (1 <= tally is_request es <= 10)%nat
    /\ (tally is_sleep es + 1 = tally is_request es)%nat
    /\ Forall (retry_event url) es.
Proof.
  destruct (retry_get url w) as [out w'] eqn:E. unfold retry_get in E.
  apply retry_loop_effects in E as (es & -> & B & Sl & Ev & _); [|vm_compute; lia|lia].
  exists es. repeat split; try assumption; apply B.
Qed.

(** X2.  What comes out of [retry_get] on any host: a response whose
    status is no error status, the answer to the last request sent; or one
    of the exceptions raised in the handler.  The [HTTPError] of the status
    check and the exception of the transport never come out, and the loop
    always ends. *)
Theorem retry_get_outcome url w :
  match retry_get url w with
  | (Ok r, w') =>
      http_error (status_code r) = false
      /\ remote w (sent w' - 1) (get_req url) = Answer r
  | (Raise e, _) => retry_get_raises e
  | (OutOfFuel, _) => False
  end.
Proof.
  destruct (retry_get url w) as [out w'] eqn:E. unfold retry_get in E.
  apply retry_loop_effects in E
    as (es & -> & B & Sl & Ev & Hok & Hraise & Hfuel); [|vm_compute; lia|lia].
  destruct out as [r|e|].
  - destruct (Hok r eq_refl) as [He Ha]. split; [exact He | exact Ha].
  - exact (Hraise e eq_refl).
  - apply Hfuel. reflexivity.
Qed.

(** ** A transport failure after a response *)

Lemma retry_loop_transport_down url r0 :
  retryable (status_code r0) = true ->
  forall k fuel rc w,
    transport_down w url 0 k -> rc + Z.of_nat k < 10 ->
    retry_loop (k + fuel) url (Some r0) rc w
    = retry_loop fuel url (Some r0) (rc + Z.of_nat k)
        (advance w k (List.concat (repeat (failed_round url) k))).
Proof.
  intros R. induction k as [|k IH]; intros fuel rc w T Hrc.
  - cbn. rewrite advance_0, Z.add_0_r. reflexivity.
  - destruct (T 0%nat) as (what & Hw); [lia|]. rewrite Nat.add_0_r in Hw.
    change (S k + fuel)%nat with (S (k + fuel)).
    rewrite retry_loop_S. cbv zeta. rewrite Hw.
    rewrite on_failure_retry by (assumption || lia).
    rewrite after_request_advance, advance_advance. cbn [and_then].
    rewrite IH.
    + rewrite advance_advance. f_equal; lia.
    + intros i Hi. destruct (T (S i)) as (what' & Hw'); [lia|].
      exists what'. cbn. rewrite <- Hw'. f_equal. lia.
    + lia.
Qed.

(** X3.  When the first response has a retryable status and every later
    request fails in the transport, the handler goes on with the response
    it still has: the call makes all ten requests and raises the
    retry-exhausted error with the detail of that first response. *)
Theorem retry_get_stale_response url w r0 d :
  remote w (sent w) (get_req url) = Answer r0 ->
  retryable (status_code r0) = true ->
  detail r0 = Ok d ->
  transport_down w url 1 9 ->
  retry_get url w
  = (Raise (TimeoutError [Lit "Unknown issue even after 10 retries "; Interp d]),
     advance w 10
       (List.concat (repeat (failed_round url) 9)
          ++ [ERequest (get_req url); retry_warning url])).
Proof.
  intros Hr R D T. unfold retry_get. rewrite retry_loop_S. cbv zeta. rewrite Hr.
  destruct (retryable_spec _ R) as (He & _). rewrite He.
  rewrite on_failure_retry by (assumption || lia).
  rewrite after_request_advance, advance_advance. cbn [and_then].
  change 9%nat with (8 + 1)%nat at 1.
  rewrite (retry_loop_transport_down url r0 R 8 1).
  - rewrite retry_loop_S. cbv zeta.
    destruct (T 9%nat) as (what & Hw); [lia|].
    change (remote (advance (advance w (1 + 0) _) 8 _)) with (remote w).
    change (sent (advance (advance w (1 + 0) _) 8 _)) with (sent w + (1 + 0) + 8)%nat.
    replace (sent w + (1 + 0) + 8)%nat with (sent w + 9)%nat by lia.
    rewrite Hw.
    rewrite (on_failure_exhausted url r0 _ d) by (assumption || lia).
    rewrite after_request_advance, !advance_advance. reflexivity.
  - intros i Hi. destruct (T (S i)) as (what & Hw); [lia|].
    exists what. cbn. rewrite <- Hw. f_equal. lia.
  - lia.
Qed.

Lemma retry_get_stale_response_witness :
  let u := JStr "https://host/api/docs/" in
  let w := fresh [busy] in
  fst (retry_get u w)
  = Raise (TimeoutError [Lit "Unknown issue even after 10 retries ";
                         Interp (JStr "busy")])
  /\ sent (snd (retry_get u w)) = 10%nat.
Proof.
  intros u w.
  rewrite (retry_get_stale_response u w (detail_response 503 "busy") (JStr "busy")).
  - split; reflexivity.
  - reflexivity.
  - reflexivity.
  - reflexivity.
  - intros i Hi. exists "connection refused".
    do 10 (destruct i as [|i]; [reflexivity || lia|]). lia.
Defined.

(** ** A failure that is classified after some retries *)

(** X4.  The classification does not depend on the round: after [k < 10]
    failed rounds a response with a status in 401..403 ends the call with
    the authentication error, and a response with status 500 with the
    server error, in both cases with the detail of that response and
    without a further sleep. *)
Theorem retry_get_classifies_at_any_round url w k r d :
  (k < 10)%nat ->
  keeps_failing w url k ->
  remote w (sent w + k) (get_req url) = Answer r ->
  detail r = Ok d ->
  (401 <= status_code r <= 403 ->
   retry_get url w
   = (Raise (ConnectionError [Lit "Problem with credentials: "; Interp d]),
      advance w (S k)
        (List.concat (repeat (failed_round url) k) ++ [ERequest (get_req url)])))
  /\ (status_code r = 500 ->
      retry_get url w
      = (Raise (TimeoutError [Lit "Problem with server: "; Interp d;
                              Lit " even after 10 retries"]),
         advance w (S k)
           (List.concat (repeat (failed_round url) k) ++ [ERequest (get_req url)]))).
Proof.
  intros Hk F Hr D.
  assert (E : exists r',
             retry_get url w
             = and_then (on_failure url (Some r)
                           (Z.of_nat k)
                           (advance w (S k)
                              (List.concat (repeat (failed_round url) k)
                                 ++ [ERequest (get_req url)])))
                 (retry_loop (9 - k) url r')
             \/ http_error (status_code r) = false).
  { destruct (http_error (status_code r)) eqn:He; [|exists None; right; reflexivity].
    exists (Some r). left. unfold retry_get.
    replace 10%nat with (k + S (9 - k))%nat by lia.
    destruct (retry_loop_rounds url k (S (9 - k)) None 0 w F) as (r' & E); [lia|].
    rewrite E, retry_loop_S. cbv zeta.
    change (remote (advance w k _)) with (remote w).
    change (sent (advance w k _)) with (sent w + k)%nat.
    rewrite Hr, He, after_request_advance, advance_advance.
    replace (k + 1)%nat with (S k) by lia. reflexivity. }
  destruct E as (r' & [E | He]).
  - split; intros Hs; rewrite E.
    + rewrite on_failure_credentials by exact Hs. rewrite D. reflexivity.
    + rewrite on_failure_server by exact Hs. rewrite D. reflexivity.
  - unfold http_error in He. split; intros Hs; exfalso.
    + apply andb_false_iff in He as [He | He];
        [apply Z.leb_gt in He | apply Z.ltb_ge in He]; lia.
    + rewrite Hs in He. discriminate.
Qed.

Lemma retry_get_classifies_at_any_round_witness :
  let u := JStr "https://host/api/docs/" in
  let expired := detail_response 401 "token expired" in
  let broken := detail_response 500 "boom" in
  fst (retry_get u (fresh [busy; busy; Answer expired]))
  = Raise (ConnectionError [Lit "Problem with credentials: ";
                            Interp (JStr "token expired")])
  /\ fst (retry_get u (fresh [busy; busy; Answer broken]))
     = Raise (TimeoutError [Lit "Problem with server: "; Interp (JStr "boom");
                            Lit " even after 10 retries"]).
Proof.
  intros u expired broken.
  assert (two : forall last, keeps_failing (fresh [busy; busy; last]) u 2).
  { intros last i Hi.
    do 2 (destruct i as [|i]; [eexists; split; reflexivity|]). lia. }
  split.
  - rewrite (proj1 (retry_get_classifies_at_any_round u
                      (fresh [busy; busy; Answer expired]) 2 expired
                      (JStr "token expired")
                      ltac:(lia) (two _) eq_refl eq_refl)).
    + reflexivity.
    + cbn. lia.
  - rewrite (proj2 (retry_get_classifies_at_any_round u
                      (fresh [busy; busy; Answer broken]) 2 broken (JStr "boom")
                      ltac:(lia) (two _) eq_refl eq_refl)).
    + reflexivity.
    + reflexivity.
Defined.

(** ** Pages without an end *)

Lemma retry_get_first_try url w r :
  remote w (sent w) (get_req url) = Answer r ->
  http_error (status_code r) = false ->
  retry_get url w = (Ok r, after_request w (get_req url)).
Proof.
  intros Hr He. unfold retry_get. rewrite retry_loop_S. cbv zeta.
  rewrite Hr, He. reflexivity.
Qed.

Lemma meta_pages_forever :
  forall fuel url acc w,
    pages_forever w -> fst (meta_pages fuel url acc w) = OutOfFuel.
Proof.
  induction fuel as [|fuel IH]; intros url acc w P; [reflexivity|].
  destruct (P (sent w) url) as (r & d & items & next & Hr & He & Hb & Hres & Hn & Ht).
  rewrite (meta_pages_next fuel url acc w r d items next
             (after_request w (get_req url))
             (retry_get_first_try url w r Hr He) Hb Hres Hn Ht).
  apply IH. exact P.
Qed.

(** X5.  The paging loop has no bound of its own: on a host whose pages
    always name a next page, [get_meta_of_files] does not come back, however
    many rounds it is given. *)
Theorem get_meta_of_files_endless U w :
  pages_forever w ->
  forall fuel, fst (get_meta_of_files U fuel w) = OutOfFuel.
Proof.
  intros P fuel. unfold get_meta_of_files. cbn.
  pose proof (meta_pages_forever fuel (JStr (get_documents_meta_url U)) [] w P) as E.
  destruct (meta_pages fuel (JStr (get_documents_meta_url U)) [] w) as [out w'].
  cbn in E. rewrite E. reflexivity.
Qed.

Lemma get_meta_of_files_endless_witness :
  let w := mkWorld (fun _ _ => Answer (page [document 1 2]
                                         (JStr "https://host/api/docs/meta/")))
             0 [] in
  fst (get_meta_of_files example_endpoints 50 w) = OutOfFuel.
Proof.
  intros w. apply (get_meta_of_files_endless example_endpoints w).
  intros n url. do 4 eexists.
  split; [reflexivity|]. split; [reflexivity|]. split; [reflexivity|].
  split; [reflexivity|]. split; reflexivity.
Defined.

(** ** Annotations that come in order *)

Lemma sort_keyed_in_order : forall l,
    Sorted (fun p q => Py.lt (fst q) (fst p) = Ok false) l ->
    Py.sort_keyed l = Ok l.
Proof.
  induction l as [|x l IH]; intros S; [reflexivity|].
  inversion S as [|? ? S' Hd]; subst. cbn. rewrite (IH S'). cbn.
  destruct Hd as [|y l' Hxy]; [reflexivity|]. cbn. rewrite Hxy. reflexivity.
Qed.

Lemma combine_map_snd {A B : Type} (f : A -> B) (l : list A) :
  map snd (combine (map f l) l) = l.
Proof. induction l as [|x l IH]; cbn; [|rewrite IH]; reflexivity. Qed.

Lemma sorted_in_order key f l :
  Forall (fun x => key x = Ok (f x)) l ->
  Sorted (fun x y => Py.lt (f y) (f x) = Ok false) l ->
  Py.sorted key (JArr l) = Ok l.
Proof.
  intros K S. unfold Py.sorted. cbn. rewrite (mapM_total key f l K).
  rewrite sort_keyed_in_order.
  - cbn. rewrite combine_map_snd. reflexivity.
  - clear K. induction S as [|x l S IH Hd]; cbn; constructor; [exact IH|].
    destruct Hd as [|y l' Hxy]; cbn; constructor. exact Hxy.
Qed.

Lemma offset_le_not_lt x y :
  offset_ok x -> offset_ok y ->
  offset_le (start_offset x) (start_offset y) ->
  Py.lt (JArr [JBool (is_none (field "start_offset" y)); field "start_offset" y])
        (JArr [JBool (is_none (field "start_offset" x)); field "start_offset" x])
  = Ok false.
Proof.
  intros Ox Oy. rewrite tuple_key_lt by assumption. unfold start_offset.
  destruct Ox as [-> | [m ->]], Oy as [-> | [n ->]]; cbn; intros H;
    try reflexivity; try contradiction.
  f_equal. apply Z.ltb_ge. exact H.
Qed.

Lemma filter_Sorted_offsets f l :
  StronglySorted offset_le (map start_offset l) ->
  StronglySorted offset_le (map start_offset (filter f l)).
Proof.
  induction l as [|x l IH]; cbn; intros S; [constructor|].
  inversion S as [|? ? S' F]; subst.
  destruct (f x); cbn; [constructor|]; try (apply IH; exact S').
  rewrite Forall_forall in *. intros o Ho. apply F.
  apply in_map_iff in Ho as (y & <- & Hy). apply filter_In in Hy as [Hy _].
  apply in_map. exact Hy.
Qed.

Lemma offsets_in_order l :
  Forall offset_ok l ->
  nulls_last l ->
  Sorted (fun x y =>
            Py.lt (JArr [JBool (is_none (field "start_offset" y));
                         field "start_offset" y])
                  (JArr [JBool (is_none (field "start_offset" x));
                         field "start_offset" x])
            = Ok false) l.
Proof.
  unfold nulls_last. intros O S. apply StronglySorted_Sorted in S.
  induction l as [|x l IH]; [constructor|].
  inversion S as [|? ? S' Hd]; subst. inversion O as [|? ? Ox Ol]; subst.
  constructor; [apply IH; assumption|].
  destruct l as [|y l]; constructor.
  inversion Hd; subst. inversion Ol; subst.
  apply offset_le_not_lt; assumption.
Qed.

(** X6.  The sort of [get_document_annotations] moves nothing that is in
    place: when the annotations of the document already come in ascending
    order of their offsets, nulls last, the call returns the kept ones in
    exactly the order of the document, annotations with equal offsets
    included. *)
Theorem get_document_annotations_keeps_order
  U document_id include_extractions w r w1 data anns :
  retry_get (JStr (get_document_api_details_url U document_id
                     (Some include_extractions) None)) w = (Ok r, w1) ->
  body r = Some data ->
  Py.getitem data "annotations" = Ok (JArr anns) ->
  Forall annotation_ok anns ->
  nulls_last anns ->
  fst (get_document_annotations U document_id include_extractions w)
  = Ok (filter kept anns).
Proof.
  intros Hr Hb Ha W S. rewrite Forall_forall in W.
  assert (Wk : forall x, In x (filter kept anns) -> annotation_ok x).
  { intros x Hx. apply filter_In in Hx as [Hx _]. apply W, Hx. }
  assert (E : Py.sorted offset_key (JArr (filter kept anns)) = Ok (filter kept anns)).
  { apply (sorted_in_order offset_key
             (fun x => JArr [JBool (is_none (field "start_offset" x));
                             field "start_offset" x])).
    - apply Forall_forall. intros x Hx. apply offset_key_total, Wk, Hx.
    - apply offsets_in_order.
      + apply Forall_forall. intros x Hx. apply (Wk x Hx).
      + apply filter_Sorted_offsets. exact S. }
  unfold get_document_annotations. cbn -[Py.sorted]. rewrite Hr.
  unfold response_json. rewrite Hb. cbn -[Py.sorted]. rewrite Ha.
  cbn -[Py.sorted].
  rewrite (filterM_total _ kept anns)
    by (apply Forall_forall; intros x Hx;
        apply revised_or_correct_or_local_spec, W, Hx).
  rewrite E. reflexivity.
Qed.

Lemma get_document_annotations_keeps_order_witness :
  let U := example_endpoints in
  let a := annotation (JNum 1) true false (JNum 5) in
  let b := annotation (JNum 2) false false (JNum 5) in
  let c := annotation JNull false false (JNum 5) in
  let d := annotation (JNum 4) false true JNull in
  let w := fresh [Answer (details [a; b; c; d])] in
  fst (get_document_annotations U 7 false w) = Ok [a; c; d].
Proof.
  intros U a b c d w.
  apply (get_document_annotations_keeps_order U 7 false w (details [a; b; c; d])
           (after_request w (get_req (JStr "https://host/api/docs/")))
           (JObj [("annotations", JArr [a; b; c; d])]) [a; b; c; d]).
  - reflexivity.
  - reflexivity.
  - reflexivity.
  - repeat (apply Forall_cons;
            [split; [eexists; split; [reflexivity|]; repeat split; discriminate
                    | offset_case]|]).
    apply Forall_nil.
  - unfold nulls_last. cbn.
    repeat (constructor; [|repeat (apply Forall_cons; [cbn; try lia; exact I|]);
                           apply Forall_nil]).
    constructor.
Defined.

(** ** Labels and templates *)

Lemma itemgetter_integer_id x :
  has_integer_id x ->
  Py.itemgetter "id" x = Ok (field "id" x) /\ exists i, field "id" x = JNum i.
Proof.
  intros (d & i & -> & I). unfold Py.itemgetter, field. cbn. rewrite I.
  split; [reflexivity | exists i; reflexivity].
Qed.

Lemma sorted_by_id_total l :
  Forall has_integer_id l ->
  exists out,
    Py.sorted (Py.itemgetter "id") (JArr l) = Ok out
    /\ Permutation out l
    /\ StronglySorted id_le out.
Proof.
  intros W. rewrite Forall_forall in W.
  destruct (sorted_total (Py.itemgetter "id") (field "id") l) as [out S].
  - apply Forall_forall. intros x Hx. apply itemgetter_integer_id, W, Hx.
  - intros x y Hx Hy.
    destruct (itemgetter_integer_id x (W x Hx)) as [_ [i ->]].
    destruct (itemgetter_integer_id y (W y Hy)) as [_ [j ->]].
    eexists. reflexivity.
  - exists out. split; [exact S|].
    destruct (sorted_spec _ _ _ S) as (s & -> & P & Sp & K).
    split; [exact P | apply sorted_by_id; assumption].
Qed.

(** X7.  [get_project_labels] returns every label of the project, none
    dropped and none added, in ascending order of the identifiers. *)
Theorem get_project_labels_sorted get_project_url w r w1 data labels :
  retry_get (JStr (get_project_url None)) w = (Ok r, w1) ->
  body r = Some data ->
  Py.getitem data "labels" = Ok (JArr labels) ->
  Forall has_integer_id labels ->
  exists out,
    get_project_labels get_project_url w = (Ok out, w1)
    /\ Permutation out labels
    /\ StronglySorted id_le out.
Proof.
  intros Hr Hb Hl W. destruct (sorted_by_id_total labels W) as (out & S & P & O).
  exists out. split; [|split; assumption].
  unfold get_project_labels. cbn -[Py.sorted]. rewrite Hr.
  unfold response_json. rewrite Hb. cbn -[Py.sorted]. rewrite Hl.
  cbn -[Py.sorted]. rewrite S. reflexivity.
Qed.

Lemma get_project_labels_sorted_witness :
  let labels := [label 30 "Date"; label 12 "Name"; label 21 "Total"] in
  let r := mkResponse 200 (Some (JObj [("labels", JArr labels)])) None "" in
  fst (get_project_labels example_project_url (fresh [busy; Answer r]))
  = Ok [label 12 "Name"; label 21 "Total"; label 30 "Date"].
Proof.
  intros labels r.
  destruct (get_project_labels_sorted example_project_url (fresh [busy; Answer r]) r
              (snd (retry_get (JStr (example_project_url None))
                      (fresh [busy; Answer r])))
              (JObj [("labels", JArr labels)]) labels)
    as (out & E & _).
  - reflexivity.
  - reflexivity.
  - reflexivity.
  - repeat (apply Forall_cons; [do 2 eexists; split; reflexivity|]).
    apply Forall_nil.
  - rewrite E. cbn. f_equal.
    assert (E' := f_equal fst E). cbn in E'. inversion E'. reflexivity.
Defined.

(** X8.  [get_project_templates] asks once and does not go through
    [retry_get]: an error status, 401 and 503 alike, comes out as the
    [HTTPError] of the status check after that single request; with any
    other status the templates are returned, all of them, in ascending
    order of the identifiers. *)
Theorem get_project_templates_single_request get_project_url w r :
  let q := get_req (JStr (get_project_url None)) in
  remote w (sent w) q = Answer r ->
  (http_error (status_code r) = true ->
   get_project_templates get_project_url w
   = (Raise (HTTPError (status_code r)), after_request w q))
  /\ (http_error (status_code r) = false ->
      forall data templates,
        body r = Some data ->
        Py.getitem data "section_labels" = Ok (JArr templates) ->
        Forall has_integer_id templates ->
        exists out,
          get_project_templates get_project_url w = (Ok out, after_request w q)
          /\ Permutation out templates
          /\ StronglySorted id_le out).
Proof.
  intros q Hr.
  assert (E : forall k : response -> M (list json),
             bind (session_get (JStr (get_project_url None))) k w
             = k r (after_request w q)).
  { intros k. cbn. unfold session_get, session_request. fold (get_req (JStr (get_project_url None))).
    fold q. rewrite Hr. reflexivity. }
  unfold get_project_templates. rewrite E. clear E. split.
  - intros He. cbn. unfold raise_for_status. rewrite He. reflexivity.
  - intros He data templates Hb Ht W.
    destruct (sorted_by_id_total templates W) as (out & S & P & O).
    exists out. split; [|split; assumption].
    cbn -[Py.sorted]. unfold raise_for_status. rewrite He.
    unfold response_json. rewrite Hb. cbn -[Py.sorted]. rewrite Ht.
    cbn -[Py.sorted]. rewrite S. reflexivity.
Qed.

Lemma get_project_templates_single_request_witness :
  let q := get_req (JStr (example_project_url None)) in
  let templates := [label 8 "Invoice"; label 3 "Receipt"] in
  let r := mkResponse 200 (Some (JObj [("section_labels", JArr templates)])) None "" in
  get_project_templates example_project_url (fresh [busy; Answer r])
  = (Raise (HTTPError 503), after_request (fresh [busy; Answer r]) q)
  /\ exists out,
      fst (get_project_templates example_project_url (fresh [Answer r])) = Ok out
      /\ Permutation out templates.
Proof.
  intros q templates r. split.
  - apply (proj1 (get_project_templates_single_request example_project_url
                    (fresh [busy; Answer r]) (detail_response 503 "busy") eq_refl)).
    reflexivity.
  - destruct (proj2 (get_project_templates_single_request example_project_url
                       (fresh [Answer r]) r eq_refl)
                eq_refl (JObj [("section_labels", JArr templates)]) templates)
      as (out & E & P & _).
    + reflexivity.
    + reflexivity.
    + repeat (apply Forall_cons; [do 2 eexists; split; reflexivity|]).
      apply Forall_nil.
    + exists out. rewrite E. split; [reflexivity | exact P].
Defined.

(** ** The details of a document *)

(** A character of several bytes counts once. *)
Example py_len_counts_characters :
  py_len (JStr ("Summe: 5 " ++ euro)) = Ok (JNum 10)
  /\ String.length ("Summe: 5 " ++ euro) = 12%nat.
Proof. split; reflexivity. Qed.

(** X9.  [get_document_details] hands back the record of the server whole.
    A null text only costs a warning, and then nothing is asked of the
    annotations and sections but that the keys exist; with a text, the
    lengths of all three are logged, and a text, annotations or sections
    without a length make the call raise [TypeError]. *)
Theorem get_document_details_outcomes
  U document_id w r w1 data text annotations sections :
  retry_get (JStr (get_document_api_details_url U document_id
                     (Some false) (Some "bbox,hocr"))) w = (Ok r, w1) ->
  body r = Some data ->
  Py.getitem data "text" = Ok text ->
  Py.getitem data "annotations" = Ok annotations ->
  Py.getitem data "sections" = Ok sections ->
  (text = JNull ->
   get_document_details U document_id w
   = (Ok data,
      advance w1 0
        [ELog WARNING [Lit "Document with ID "; Interp (JNum document_id);
                       Lit " does not contain any text, check OCR status."]]))
  /\ (forall n a s,
         text <> JNull ->
         py_len text = Ok n -> py_len annotations = Ok a -> py_len sections = Ok s ->
         get_document_details U document_id w
         = (Ok data,
            advance w1 0
              [ELog INFO [Lit "Document with ID "; Interp (JNum document_id);
                          Lit " contains "; Interp n; Lit " characters and ";
                          Interp a; Lit " annotations in "; Interp s;
                          Lit " sections."]]))
  /\ (text <> JNull ->
      py_len text = Raise TypeError
      \/ py_len annotations = Raise TypeError
      \/ py_len sections = Raise TypeError ->
      get_document_details U document_id w = (Raise TypeError, w1)).
Proof.
  intros Hr Hb Ht Ha Hs.
  assert (N : text <> JNull -> is_none text = false)
    by (destruct text; intros N; try reflexivity; contradiction).
  unfold get_document_details. cbn -[py_len]. rewrite Hr.
  unfold response_json. rewrite Hb. cbn -[py_len]. rewrite Ht, Ha, Hs.
  cbn -[py_len]. split; [|split].
  - intros ->. cbn. unfold advance. rewrite Nat.add_0_r. reflexivity.
  - intros n a s Hn Ln La Ls. rewrite (N Hn), Ln, La, Ls. cbn.
    unfold advance. rewrite Nat.add_0_r. reflexivity.
  - intros Hn H. rewrite (N Hn).
    destruct (py_len text) as [n|e|] eqn:Ln.
    + destruct (py_len annotations) as [a|e|] eqn:La.
      * destruct H as [H | [H | H]]; try discriminate. rewrite H. reflexivity.
      * destruct annotations; cbn in La; inversion La; reflexivity.
      * destruct annotations; discriminate.
    + destruct text; cbn in Ln; inversion Ln; reflexivity.
    + destruct text; discriminate.
Qed.

Lemma get_document_details_outcomes_witness :
  let U := example_endpoints in
  let pending := JObj [("text", JNull); ("annotations", JNull); ("sections", JNull)] in
  let broken := JObj [("text", JStr "Invoice"); ("annotations", JArr []);
                      ("sections", JNull)] in
  let ready := JObj [("text", JStr "Invoice"); ("annotations", JArr []);
                     ("sections", JArr [])] in
  let answer := fun data => fresh [Answer (mkResponse 200 (Some data) None "")] in
  fst (get_document_details U 7 (answer pending)) = Ok pending
  /\ fst (get_document_details U 7 (answer ready)) = Ok ready
  /\ fst (get_document_details U 7 (answer broken)) = Raise TypeError.
Proof.
  intros U pending broken ready answer.
  split; [|split].
  - rewrite (proj1 (get_document_details_outcomes U 7 (answer pending)
                      (mkResponse 200 (Some pending) None "")
                      (snd (retry_get (JStr "https://host/api/docs/") (answer pending)))
                      pending JNull JNull JNull
                      eq_refl eq_refl eq_refl eq_refl eq_refl) eq_refl).
    reflexivity.
  - rewrite (proj1 (proj2 (get_document_details_outcomes U 7 (answer ready)
                      (mkResponse 200 (Some ready) None "")
                      (snd (retry_get (JStr "https://host/api/docs/") (answer ready)))
                      ready (JStr "Invoice") (JArr []) (JArr [])
                      eq_refl eq_refl eq_refl eq_refl eq_refl))
               (JNum 7) (JNum 0) (JNum 0)); try reflexivity. discriminate.
  - rewrite (proj2 (proj2 (get_document_details_outcomes U 7 (answer broken)
                      (mkResponse 200 (Some broken) None "")
                      (snd (retry_get (JStr "https://host/api/docs/") (answer broken)))
                      broken (JStr "Invoice") (JArr []) JNull
                      eq_refl eq_refl eq_refl eq_refl eq_refl))).
    + reflexivity.
    + discriminate.
    + right. right. reflexivity.
Defined.

(** X10.  [get_document_text] and [get_document_hocr] return the field as
    the server sent it: a null comes back as null, with a warning and no
    exception; a body without the field makes the call raise [KeyError]. *)
Theorem get_document_text_and_hocr U document_id w r w1 d :
  body r = Some (JObj d) ->
  (retry_get (JStr (get_document_api_details_url U document_id None None)) w
   = (Ok r, w1) ->
   (Py.lookup "text" d = None ->
    get_document_text U document_id w = (Raise (KeyError "text"), w1))
   /\ (Py.lookup "text" d = Some JNull ->
       get_document_text U document_id w
       = (Ok JNull,
          advance w1 0
            [ELog WARNING [Lit "Document with ID "; Interp (JNum document_id);
                           Lit " does not contain any text, check OCR status."]]))
   /\ (forall s, Py.lookup "text" d = Some (JStr s) ->
                 fst (get_document_text U document_id w) = Ok (JStr s)))
  /\
  (retry_get (JStr (get_document_api_details_url U document_id
                      None (Some "bbox,hocr"))) w = (Ok r, w1) ->
   (Py.lookup "hocr" d = None ->
    get_document_hocr U document_id w = (Raise (KeyError "hocr"), w1))
   /\ (Py.lookup "hocr" d = Some JNull ->
       get_document_hocr U document_id w
       = (Ok JNull,
          advance w1 0
            [ELog WARNING [Lit "Document with ID "; Interp (JNum document_id);
                           Lit " does not contain hocr."]]))
   /\ (forall s, Py.lookup "hocr" d = Some (JStr s) ->
                 fst (get_document_hocr U document_id w) = Ok (JStr s))).
Proof.
  intros Hb. split; intros Hr.
  - unfold get_document_text. cbn. rewrite Hr. unfold response_json. rewrite Hb. cbn.
    split; [|split].
    + intros ->. reflexivity.
    + intros ->. cbn. unfold advance. rewrite Nat.add_0_r. reflexivity.
    + intros s ->. reflexivity.
  - unfold get_document_hocr. cbn. rewrite Hr. unfold response_json. rewrite Hb. cbn.
    split; [|split].
    + intros ->. reflexivity.
    + intros ->. cbn. unfold advance. rewrite Nat.add_0_r. reflexivity.
    + intros s ->. reflexivity.
Qed.

Lemma get_document_text_and_hocr_witness :
  let U := example_endpoints in
  let d := [("text", JNull)] in
  let w := fresh [Answer (mkResponse 200 (Some (JObj d)) None "")] in
  fst (get_document_text U 7 w) = Ok JNull
  /\ fst (get_document_hocr U 7 w) = Raise (KeyError "hocr").
Proof.
  intros U d w. split.
  - rewrite (proj1 (proj2 (proj1 (get_document_text_and_hocr U 7 w
                                    (mkResponse 200 (Some (JObj d)) None "")
                                    (snd (retry_get (JStr "https://host/api/docs/") w))
                                    d eq_refl) eq_refl)) eq_refl).
    reflexivity.
  - rewrite (proj1 (proj2 (get_document_text_and_hocr U 7 w
                             (mkResponse 200 (Some (JObj d)) None "")
                             (snd (retry_get (JStr "https://host/api/docs/") w))
                             d eq_refl) eq_refl) eq_refl).
    reflexivity.
Defined.

(** ** Writing operations *)

(** X11.  The operations that write send their request once, whatever the
    host replies, and add nothing else to the trace: a POST or DELETE is
    never sent again.  [post_document_bulk_annotation] returns the response
    unless its status is an error status, which comes out as [HTTPError]. *)
Theorem writes_are_sent_once
  U post_url delete_url w document_id annotation_id annotation_list
  project_id label_name templates :
  let bulk := mkRequest POST (JStr (post_url document_id)) (Some annotation_list) in
  let unlabel := mkRequest DELETE (JStr (delete_url document_id annotation_id))
                   None in
  snd (post_document_bulk_annotation post_url document_id annotation_list w)
  = after_request w bulk
  /\ snd (delete_document_annotation delete_url document_id annotation_id w)
     = after_request w unlabel
  /\ snd (create_label U project_id label_name templates w)
     = after_request w (create_label_req U project_id label_name templates)
  /\ snd (delete_file_konfuzio_api U document_id w)
     = after_request w (delete_req U document_id)
  /\ (forall r,
         remote w (sent w) bulk = Answer r ->
         fst (post_document_bulk_annotation post_url document_id annotation_list w)
         = if http_error (status_code r) then Raise (HTTPError (status_code r))
           else Ok r).
Proof.
  intros bulk unlabel. repeat split.
  - unfold post_document_bulk_annotation, session_post, session_request. cbn.
    fold bulk. destruct (remote w (sent w) bulk) as [r|]; [|reflexivity].
    unfold raise_for_status. destruct (http_error (status_code r)); reflexivity.
  - unfold delete_document_annotation, session_request. cbn. fold unlabel.
    destruct (remote w (sent w) unlabel); reflexivity.
  - unfold create_label, session_post, session_request. cbn.
    fold (create_label_req U project_id label_name templates).
    destruct (remote w (sent w) _) as [r|]; [|reflexivity].
    destruct (status_code r =? 201); [|reflexivity].
    cbn. destruct (response_json r) as [j| |]; try reflexivity.
    cbn. destruct (Py.getitem j "id"); reflexivity.
  - unfold delete_file_konfuzio_api, session_delete, session_request. cbn.
    fold (delete_req U document_id).
    destruct (remote w (sent w) _) as [r|]; [|reflexivity].
    destruct (status_code r =? 204); reflexivity.
  - intros r Hr.
    unfold post_document_bulk_annotation, session_post, session_request. cbn.
    fold bulk. rewrite Hr. unfold raise_for_status.
    destruct (http_error (status_code r)); reflexivity.
Qed.

Lemma writes_are_sent_once_witness :
  let w := fresh [busy; Answer (detail_response 201 "created")] in
  post_document_bulk_annotation example_annotations_url 7 (JArr []) w
  = (Raise (HTTPError 503),
     after_request w (mkRequest POST (JStr (example_annotations_url 7))
                        (Some (JArr [])))).
Proof.
  intros w.
  destruct (writes_are_sent_once example_endpoints example_annotations_url
              (fun _ _ => "https://host/api/docs/annotations/1/") w 7 1 (JArr [])
              1 "Name" [])
    as (S & _ & _ & _ & O).
  specialize (O (detail_response 503 "busy") eq_refl).
  rewrite (surjective_pairing
             (post_document_bulk_annotation example_annotations_url 7 (JArr []) w)).
  rewrite S, O. reflexivity.
Defined.

(** ** Bodies that are no list of documents *)

Lemma mapM_first_raises {A B : Type} (f : A -> result B) x l e :
  f x = Raise e -> Py.mapM f (x :: l) = Raise e.
Proof. intros H. cbn. rewrite H. reflexivity. Qed.

(** X12.  A body that is neither a list nor a dict with [results] is taken
    for the documents all the same: [get_meta_of_files] then raises
    [TypeError], except on an empty dict or an empty string, where it
    returns the empty list. *)
Theorem get_meta_of_files_odd_body U fuel w r w1 data :
  retry_get (JStr (get_documents_meta_url U)) w = (Ok r, w1) ->
  body r = Some data ->
  Py.is_dict_with "results" data = false ->
  (forall l, data <> JArr l) ->
  get_meta_of_files U (S fuel) w
  = (if Py.eq data (JObj []) || Py.eq data (JStr "") then Ok [] else Raise TypeError,
     w1).
Proof.
  intros Hr Hb Hd Hl. unfold get_meta_of_files. cbn -[sorted_dataset_documents].
  rewrite Hr. unfold response_json. rewrite Hb. cbn -[sorted_dataset_documents].
  rewrite Hd. cbn -[sorted_dataset_documents]. f_equal.
  unfold sorted_dataset_documents, Py.sorted.
  destruct data as [|b|n|s|l|d]; try reflexivity.
  - destruct s as [|c s]; reflexivity.
  - destruct (Hl l eq_refl).
  - destruct d as [|[k v] d]; reflexivity.
Qed.

Lemma get_meta_of_files_odd_body_witness :
  let U := example_endpoints in
  let refused := JObj [("detail", JStr "Invalid token.")] in
  let answer := fun data => fresh [Answer (mkResponse 200 (Some data) None "")] in
  fst (get_meta_of_files U 1 (answer refused)) = Raise TypeError
  /\ fst (get_meta_of_files U 1 (answer (JObj []))) = Ok [].
Proof.
  intros U refused answer. split.
  - rewrite (get_meta_of_files_odd_body U 0 (answer refused)
               (mkResponse 200 (Some refused) None "")
               (snd (retry_get (JStr (get_documents_meta_url U)) (answer refused)))
               refused eq_refl eq_refl eq_refl).
    + reflexivity.
    + discriminate.
  - rewrite (get_meta_of_files_odd_body U 0 (answer (JObj []))
               (mkResponse 200 (Some (JObj [])) None "")
               (snd (retry_get (JStr (get_documents_meta_url U)) (answer (JObj []))))
               (JObj []) eq_refl eq_refl eq_refl).
    + reflexivity.
    + discriminate.
Defined.

(** ** A document without a status *)

Lemma filterM_raises {A : Type} (c : A -> result bool) e : forall l,
    Forall (fun x => (exists b, c x = Ok b) \/ c x = Raise e) l ->
    Exists (fun x => c x = Raise e) l ->
    Py.filterM c l = Raise e.
Proof.
  induction l as [|x l IH]; intros F X; [inversion X|].
  inversion F as [|? ? Hx F']; subst. cbn.
  destruct Hx as [[b Hb] | Hr]; [|rewrite Hr; reflexivity].
  rewrite Hb. inversion X as [? ? Hx|? ? X']; subst;
    [rewrite Hx in Hb; discriminate|].
  rewrite (IH F' X'). reflexivity.
Qed.

Lemma in_dataset_or_key_error x :
  has_integer_id x ->
  (exists b, in_dataset x = Ok b) \/ in_dataset x = Raise (KeyError "dataset_status").
Proof.
  intros (d & i & -> & _). unfold in_dataset. cbn.
  destruct (Py.lookup "dataset_status" d); [left; eexists|right]; reflexivity.
Qed.

(** X13.  One document without a [dataset_status] spoils the whole list:
    [get_meta_of_files] raises [KeyError] and returns none of the documents,
    wherever in the list that document is. *)
Theorem get_meta_of_files_missing_status U fuel w r w1 documents :
  retry_get (JStr (get_documents_meta_url U)) w = (Ok r, w1) ->
  body r = Some (JArr documents) ->
  Forall has_integer_id documents ->
  Exists lacks_status documents ->
  get_meta_of_files U (S fuel) w = (Raise (KeyError "dataset_status"), w1).
Proof.
  intros Hr Hb W X. unfold get_meta_of_files. cbn -[sorted_dataset_documents].
  rewrite Hr. unfold response_json. rewrite Hb. cbn -[sorted_dataset_documents].
  unfold lift. f_equal. unfold sorted_dataset_documents.
  destruct (sorted_by_id_total documents W) as (out & S & P & _). rewrite S.
  cbn [bind Monad_result].
  apply filterM_raises.
  - apply Forall_forall. intros x Hx. apply in_dataset_or_key_error.
    rewrite Forall_forall in W. apply W. apply (Permutation_in _ P). exact Hx.
  - apply Exists_exists in X as (x & Hx & d & -> & Hd).
    apply Exists_exists. exists (JObj d). split.
    + apply (Permutation_in _ (Permutation_sym P)). exact Hx.
    + unfold in_dataset. cbn. rewrite Hd. reflexivity.
Qed.

Lemma get_meta_of_files_missing_status_witness :
  let U := example_endpoints in
  let documents := [document 1 2; JObj [("id", JNum 9)]; document 3 3] in
  let w := fresh [Answer (mkResponse 200 (Some (JArr documents)) None "")] in
  fst (get_meta_of_files U 1 w) = Raise (KeyError "dataset_status").
Proof.
  intros U documents w.
  rewrite (get_meta_of_files_missing_status U 0 w
             (mkResponse 200 (Some (JArr documents)) None "")
             (snd (retry_get (JStr (get_documents_meta_url U)) w)) documents).
  - reflexivity.
  - reflexivity.
  - reflexivity.
  - repeat (apply Forall_cons; [do 2 eexists; split; reflexivity|]).
    apply Forall_nil.
  - apply Exists_cons_tl, Exists_cons_hd. eexists. split; reflexivity.
Defined.

(** ** The two lists of annotations *)

Lemma insert_item_keyed f x : forall s,
    Py.insert (f x, x) (map (fun y => (f y, y)) s)
    = match insert_item f x s with
      | Ok r => Ok (map (fun y => (f y, y)) r)
      | Raise e => Raise e
      | OutOfFuel => OutOfFuel
      end.
Proof.
  induction s as [|y s IH]; cbn; [reflexivity|].
  destruct (Py.lt (f y) (f x)) as [[|]| |]; cbn; try reflexivity.
  rewrite IH. destruct (insert_item f x s); reflexivity.
Qed.

Lemma sort_items_keyed f : forall l,
    Py.sort_keyed (map (fun y => (f y, y)) l)
    = match sort_items f l with
      | Ok r => Ok (map (fun y => (f y, y)) r)
      | Raise e => Raise e
      | OutOfFuel => OutOfFuel
      end.
Proof.
  induction l as [|x l IH]; cbn; [reflexivity|].
  rewrite IH. destruct (sort_items f l) as [s| |]; cbn; try reflexivity.
  apply insert_item_keyed.
Qed.

Lemma combine_map {A B : Type} (f : A -> B) (l : list A) :
  combine (map f l) l = map (fun y => (f y, y)) l.
Proof. induction l as [|x l IH]; cbn; [|rewrite IH]; reflexivity. Qed.

Lemma sorted_items key f l :
  Forall (fun x => key x = Ok (f x)) l ->
  Py.sorted key (JArr l) = sort_items f l.
Proof.
  intros K. unfold Py.sorted. cbn. rewrite (mapM_total key f l K).
  rewrite combine_map, sort_items_keyed.
  destruct (sort_items f l) as [s| |]; cbn; try reflexivity.
  rewrite map_map. cbn. rewrite map_id. reflexivity.
Qed.

Lemma insert_item_incl f x : forall s r,
    insert_item f x s = Ok r -> forall y, In y r -> y = x \/ In y s.
Proof.
  induction s as [|z s IH]; cbn; intros r H y Hy.
  - inversion H; subst. destruct Hy as [<- | []]. left. reflexivity.
  - destruct (Py.lt (f z) (f x)) as [[|]| |]; try discriminate.
    + destruct (insert_item f x s) as [r'| |] eqn:E; try discriminate.
      inversion H; subst. destruct Hy as [<- | Hy]; [right; left; reflexivity|].
      destruct (IH r' eq_refl y Hy) as [-> | Hs]; [left; reflexivity|].
      right. right. exact Hs.
    + inversion H; subst. destruct Hy as [<- | Hy]; [left; reflexivity|].
      right. exact Hy.
Qed.

Lemma sort_items_incl f : forall l r,
    sort_items f l = Ok r -> forall y, In y r -> In y l.
Proof.
  induction l as [|x l IH]; cbn; intros r H y Hy.
  - inversion H; subst. destruct Hy.
  - destruct (sort_items f l) as [s| |] eqn:E; try discriminate.
    destruct (insert_item_incl f x s r H y Hy) as [-> | Hs]; [left; reflexivity|].
    right. apply (IH s eq_refl). exact Hs.
Qed.

Lemma insert_item_agree f g (P : json -> Prop) x :
  (forall a b, P a -> P b -> Py.lt (f a) (f b) = Py.lt (g a) (g b)) ->
  P x ->
  forall s, (forall y, In y s -> P y) -> insert_item f x s = insert_item g x s.
Proof.
  intros A Px. induction s as [|y s IH]; intros Ps; cbn; [reflexivity|].
  rewrite (A y x (Ps y (or_introl eq_refl)) Px).
  destruct (Py.lt (g y) (g x)) as [[|]| |]; cbn; try reflexivity.
  rewrite IH; [reflexivity|]. intros z Hz. apply Ps. right. exact Hz.
Qed.

Lemma sort_items_agree f g (P : json -> Prop) :
  (forall a b, P a -> P b -> Py.lt (f a) (f b) = Py.lt (g a) (g b)) ->
  forall l, (forall y, In y l -> P y) -> sort_items f l = sort_items g l.
Proof.
  intros A. induction l as [|x l IH]; intros Pl; cbn; [reflexivity|].
  rewrite <- IH by (intros y Hy; apply Pl; right; exact Hy).
  destruct (sort_items f l) as [s| |] eqn:E; cbn; try reflexivity.
  apply (insert_item_agree f g P x A); [apply Pl; left; reflexivity|].
  intros y Hy. apply Pl. right. apply (sort_items_incl f l s E y Hy).
Qed.

Lemma revised_or_correct_or_local_with_id x :
  section_annotation_ok x -> has_server_id x ->
  revised_or_correct_or_local x = Ok (revised_or_marked x).
Proof.
  intros (d & -> & R & C & _). unfold has_server_id, field.
  unfold revised_or_correct_or_local, revised_or_marked. cbn.
  destruct (Py.lookup "revised" d) as [a|]; [|contradiction].
  destruct (Py.lookup "is_correct" d) as [b|]; [|contradiction].
  destruct (Py.lookup "id" d) as [c|]; [|discriminate].
  intros I. cbn. destruct (Py.truthy a); [reflexivity|].
  cbn. destruct (Py.truthy b); [reflexivity|]. cbn. rewrite I. reflexivity.
Qed.

Lemma offset_key_pair x :
  section_annotation_ok x -> offset_key x = Ok (offset_pair x).
Proof.
  intros (d & -> & _ & _ & n & O). unfold offset_key, offset_pair, field. cbn.
  rewrite O. reflexivity.
Qed.

(** X14.  On annotations that have an identifier of the server and an
    integer start offset, [get_document_sections] and
    [get_document_annotations] agree: given the same annotations of the
    document, they return the same list in the same order. *)
Theorem sections_agree_with_annotations
  U document_id include_extractions w r w1 data w' r' w1' data' anns :
  retry_get (JStr (get_document_api_details_url U document_id None None)) w
  = (Ok r, w1) ->
  body r = Some data ->
  Py.getitem data "annotations" = Ok (JArr anns) ->
  retry_get (JStr (get_document_api_details_url U document_id
                     (Some include_extractions) None)) w' = (Ok r', w1') ->
  body r' = Some data' ->
  Py.getitem data' "annotations" = Ok (JArr anns) ->
  Forall section_annotation_ok anns ->
  Forall has_server_id anns ->
  fst (get_document_sections U document_id w)
  = fst (get_document_annotations U document_id include_extractions w').
Proof.
  intros Hr Hb Ha Hr' Hb' Ha' W I. rewrite Forall_forall in W, I.
  assert (Wk : forall x, In x (filter revised_or_marked anns) ->
                         section_annotation_ok x).
  { intros x Hx. apply filter_In in Hx as [Hx _]. apply W, Hx. }
  assert (S : Py.sorted (Py.itemgetter "start_offset")
                (JArr (filter revised_or_marked anns))
              = Py.sorted offset_key (JArr (filter revised_or_marked anns))).
  { rewrite (sorted_items _ (field "start_offset"))
      by (apply Forall_forall; intros x Hx; apply section_annotation_offset, Wk, Hx).
    rewrite (sorted_items _ offset_pair)
      by (apply Forall_forall; intros x Hx; apply offset_key_pair, Wk, Hx).
    apply (sort_items_agree _ _ section_annotation_ok); [|exact Wk].
    intros a b Pa Pb. unfold offset_pair.
    destruct (section_annotation_offset a Pa) as [_ [m Em]].
    destruct (section_annotation_offset b Pb) as [_ [n En]].
    rewrite tuple_key_lt by (right; eexists; eassumption).
    rewrite Em, En. reflexivity. }
  unfold get_document_sections, get_document_annotations.
  cbn -[Py.sorted]. rewrite Hr, Hr'.
  unfold response_json. rewrite Hb, Hb'. cbn -[Py.sorted]. rewrite Ha, Ha'.
  cbn -[Py.sorted].
  rewrite (filterM_total _ revised_or_marked anns)
    by (apply Forall_forall; intros x Hx; apply revised_or_correct_spec, W, Hx).
  rewrite (filterM_total _ revised_or_marked anns)
    by (apply Forall_forall; intros x Hx;
        apply revised_or_correct_or_local_with_id; [apply W | apply I]; exact Hx).
  rewrite S.
  destruct (Py.sorted offset_key (JArr (filter revised_or_marked anns)));
    reflexivity.
Qed.

Lemma sections_agree_with_annotations_witness :
  let U := example_endpoints in
  let a := annotation (JNum 1) true false (JNum 8) in
  let b := annotation (JNum 2) false false (JNum 3) in
  let c := annotation (JNum 3) false true (JNum 5) in
  let w := fresh [Answer (details [a; b; c])] in
  fst (get_document_sections U 7 w) = fst (get_document_annotations U 7 true w).
Proof.
  intros U a b c w.
  apply (sections_agree_with_annotations U 7 true w (details [a; b; c])
           (snd (retry_get (JStr "https://host/api/docs/") w))
           (JObj [("annotations", JArr [a; b; c])])
           w (details [a; b; c])
           (snd (retry_get (JStr "https://host/api/docs/") w))
           (JObj [("annotations", JArr [a; b; c])]) [a; b; c]);
    try reflexivity.
  - repeat (apply Forall_cons;
            [eexists; split; [reflexivity|];
             split; [discriminate|]; split; [discriminate|];
             eexists; reflexivity|]).
    apply Forall_nil.
  - repeat (apply Forall_cons; [reflexivity|]). apply Forall_nil.
Defined.

(** ** Images by URL *)


Lemma web_after_after w cs ds ms ns :
  web_after (web_after w cs ms) ds ns = web_after w (cs ++ ds) (ms ++ ns).
Proof. unfold web_after. cbn. rewrite !app_assoc. reflexivity. Qed.

Lemma is_url_image_answered url t r w :
  answer w (List.length (calls w)) (Head url) = Answer r ->
  content_type r = Some t ->
  is_url_image url w
  = (Done (is_image_type t), web_after w [Head url] [info_of url t]).
Proof.
  intros Ha Ht. unfold is_url_image, requests_call, content_type_header. cbn.
  rewrite Ha, Ht. cbn.
  match goal with |- context [if ?b then _ else _] => destruct b end; reflexivity.
Qed.








Section ImagesFacts.

Variable image : Type.
Variable Image_open : image_source -> option image.
Variable file_type : Type.
Variable same_file_type : file_type -> file_type -> bool.
Variable IMAGE_FILE : file_type.
Variable get_file_type : string -> W file_type.

Let download := download_images image Image_open file_type same_file_type
                  IMAGE_FILE get_file_type.



Lemma for_each_heads_until : forall pre types u post r w,
    heads_answer (answer w) (List.length (calls w)) pre types ->
    answer w (List.length (calls w) + List.length pre) (Head u) = Answer r ->
    content_type r = None ->
    for_each is_url_image (pre ++ u :: post)%list w
    = (Raised (Exn (KeyError "content-type")),
       web_after w (map Head pre ++ [Head u]) (infos_of pre types)).
Proof.
  induction pre as [|p pre IH]; intros [|t types] u post r w H Ha Hc; try destruct H.
  - cbn [app for_each]. cbn [bind Monad_W].
    rewrite Nat.add_0_r in Ha.
    unfold is_url_image, requests_call, content_type_header. cbn.
    rewrite Ha, Hc. cbn. unfold web_after. cbn. rewrite app_nil_r. reflexivity.
  - destruct H as (r0 & Hr0 & Ht). cbn [app for_each]. cbn [bind Monad_W].
    rewrite (is_url_image_answered p t r0 w Hr0 Ht).
    rewrite (IH types u post r).
    + rewrite web_after_after. reflexivity.
    + cbn. rewrite length_app, Nat.add_1_r. exact H0.
    + cbn. rewrite length_app, Nat.add_1_r. rewrite <- Ha. f_equal. cbn. lia.
    + exact Hc.
Qed.

(** X16.  A HEAD response without a content type ends [download_images]
    with [KeyError]: the URLs after it are not even asked about, and nothing
    is downloaded. *)
Theorem download_images_missing_content_type w pre types u post r :
  heads_answer (answer w) (List.length (calls w)) pre types ->
  answer w (List.length (calls w) + List.length pre) (Head u) = Answer r ->
  content_type r = None ->
  download (Some (pre ++ u :: post)%list) w
  = (Raised (Exn (KeyError "content-type")),
     web_after w (map Head pre ++ [Head u]) (infos_of pre types)).
Proof.
  intros H Ha Hc. unfold download, download_images. cbn [bind Monad_W].
  rewrite (for_each_heads_until pre types u post r w H Ha Hc). reflexivity.
Qed.

End ImagesFacts.


Lemma download_images_missing_content_type_witness :
  let download :=
    download_images string example_open Z Z.eqb 1 (fun _ => ret 1) in
  let w := example_web example_types in
  download (Some ["https://host/logo.png"; "https://host/unknown";
                  "https://host/page.html"]) w
  = (Raised (Exn (KeyError "content-type")),
     web_after w [Head "https://host/logo.png"; Head "https://host/unknown"]
       [info_of "https://host/logo.png" "image/png"]).
Proof.
  intros download w. unfold download.
  apply (download_images_missing_content_type string example_open Z Z.eqb 1
           (fun _ => ret 1) w ["https://host/logo.png"] ["image/png"]
           "https://host/unknown" ["https://host/page.html"]
           (mkResponse 200 None None "")).
  - split; [eexists; split; reflexivity | exact I].
  - reflexivity.
  - reflexivity.
Defined.
